(** * logutils: database, file and stream logging sinks

    A shallow embedding of [logutils.py]: the [DatabaseHandler] class
    (construction with mapping validation, [emit], [close]) and the two
    set-up helpers [setup_file_logger] and [setup_stream_logger], together
    with the parts of the Python runtime they rely on (string methods,
    exceptions, the logger registry).

    Conventions.
    - A Python [str] is a [string] whose characters are the code points
      below 256.
    - A Python dict that is iterated (the column mapping) is an association
      list in insertion order; a dict that is only looked up is a [gmap].
    - Code that may raise returns a sum [A + exn]; code that also talks to
      the database or to [sys.stderr] runs in the monad [M], which threads
      the list of observable events. *)

From Stdlib Require Import ZArith Ascii String List Bool Lia.
From Stdlib Require Import SpecFloat.
From stdpp Require Import base option list sorting strings gmap.

(* ================================================================== *)
(** * Python string methods *)
(* ================================================================== *)

Module PyStr.

Definition code (c : ascii) : N := N_of_ascii c.

(** [str.isspace] on one character: the code points below 256 that
    Python treats as whitespace. *)
Definition isspace (c : ascii) : bool :=
  let n := code c in
  ((9 <=? n) && (n <=? 13) || (28 <=? n) && (n <=? 32)
   || (n =? 133) || (n =? 160))%N.

(** The line boundaries of [str.splitlines]. *)
Definition is_linebreak (c : ascii) : bool :=
  let n := code c in
  ((10 <=? n) && (n <=? 13) || (28 <=? n) && (n <=? 30) || (n =? 133))%N.

Definition LF : ascii := ascii_of_N 10.
Definition CR : ascii := ascii_of_N 13.

Fixpoint forallb_str (p : ascii -> bool) (s : string) : bool :=
  match s with
  | EmptyString => true
  | String c s' => p c && forallb_str p s'
  end.

(** [str.lstrip()], [str.rstrip()], [str.strip()] without arguments. *)
Fixpoint lstrip (s : string) : string :=
  match s with
  | EmptyString => EmptyString
  | String c s' => if isspace c then lstrip s' else s
  end.

Fixpoint rstrip (s : string) : string :=
  match s with
  | EmptyString => EmptyString
  | String c s' =>
      match rstrip s' with
      | EmptyString => if isspace c then EmptyString else String c EmptyString
      | r => String c r
      end
  end.

Definition strip (s : string) : string := rstrip (lstrip s).

(** [sep.join(parts)]. *)
Fixpoint join (sep : string) (parts : list string) : string :=
  match parts with
  | [] => ""
  | [p] => p
  | p :: rest => p +:+ sep +:+ join sep rest
  end.

(** [str.splitlines()]: [cur] is the line being read, [after_cr] tells
    that the previous character was a carriage return, so that a line
    feed right after it belongs to the same boundary. *)
Fixpoint splitlines_from (after_cr : bool) (cur : string) (s : string)
  : list string :=
  match s with
  | EmptyString => match cur with EmptyString => [] | _ => [cur] end
  | String c s' =>
      if is_linebreak c then
        if after_cr && Ascii.eqb c LF then splitlines_from false "" s'
        else cur :: splitlines_from (Ascii.eqb c CR) "" s'
      else splitlines_from false (cur +:+ String c "") s'
  end.

Definition splitlines (s : string) : list string :=
  splitlines_from false "" s.

(** The only line boundary in [s] is the line feed. *)
Definition only_LF (s : string) : bool :=
  forallb_str (fun c => negb (is_linebreak c) || Ascii.eqb c LF) s.

(** [s.endswith(c)] for a character [c]. *)
Fixpoint endswith (c : ascii) (s : string) : bool :=
  match s with
  | EmptyString => false
  | String c' EmptyString => Ascii.eqb c' c
  | String _ s' => endswith c s'
  end.

(** [str.replace(old, new)] for a one-character [old]. *)
Fixpoint replace_char (old : ascii) (new : string) (s : string) : string :=
  match s with
  | EmptyString => EmptyString
  | String c s' =>
      (if Ascii.eqb c old then new else String c "") +:+ replace_char old new s'
  end.

(** [str.lower()] on the code points below 256. *)
Definition lower_char (c : ascii) : ascii :=
  let n := code c in
  if ((65 <=? n) && (n <=? 90)
      || (192 <=? n) && (n <=? 222) && negb (n =? 215))%N
  then ascii_of_N (n + 32) else c.

Fixpoint lower (s : string) : string :=
  match s with
  | EmptyString => EmptyString
  | String c s' => String (lower_char c) (lower s')
  end.

(** ["'%s'" % x]. *)
Definition quoted (x : string) : string := "'" +:+ x +:+ "'".

(** [template.format] with keyword arguments [kw], for templates whose
    replacement fields are plain names: text outside braces is copied, [{name}] is replaced by
    the keyword argument [name].  [field] is [Some n] while the
    characters [n] of a field name have been read.  [None] as a result
    stands for the [KeyError] / [ValueError] of a malformed call. *)
Fixpoint kwarg (kw : list (string * string)) (name : string) : option string :=
  match kw with
  | [] => None
  | (k, v) :: kw' => if String.eqb k name then Some v else kwarg kw' name
  end.

Fixpoint format_from (field : option string) (kw : list (string * string))
  (tmpl : string) : option string :=
  match tmpl with
  | EmptyString => match field with None => Some "" | Some _ => None end
  | String c t =>
      match field with
      | None =>
          if Ascii.eqb c "{"%char then format_from (Some "") kw t
          else if Ascii.eqb c "}"%char then None
          else option_map (String c) (format_from None kw t)
      | Some name =>
          if Ascii.eqb c "}"%char then
            match kwarg kw name, format_from None kw t with
            | Some v, Some rest => Some (v +:+ rest)
            | _, _ => None
            end
          else format_from (Some (name +:+ String c "")) kw t
      end
  end.

Definition format (tmpl : string) (kw : list (string * string))
  : option string :=
  format_from None kw tmpl.

End PyStr.

(* ================================================================== *)
(** * Python values, exceptions and effects *)
(* ================================================================== *)

Module Py.

(** A [datetime.datetime] instance. *)
Record datetime := Datetime {
  dt_year : Z; dt_month : Z; dt_day : Z;
  dt_hour : Z; dt_minute : Z; dt_second : Z; dt_microsecond : Z
}.

#[local] Set Warnings "-register-all".

(** The values a record attribute can hold.  [VObject] is an instance
    of any class other than the ones listed before it; such an object is
    taken to be true and not iterable. *)
Inductive value :=
| VNone
| VBool (b : bool)
| VInt (z : Z)
| VFloat (f : spec_float)
| VStr (s : string)
| VDatetime (d : datetime)
| VTuple (items : list value)
| VObject (cls : string) (ident : nat).

(** An exception instance: its class, whether that class derives from
    [Exception] (it always derives from [BaseException]), its text. *)
Record exn := Exn {
  exn_class : string;
  exn_is_Exception : bool;
  exn_text : string
}.

Definition AttributeError (cls attr : string) : exn :=
  Exn "AttributeError" true
      ("'" +:+ cls +:+ "' object has no attribute '" +:+ attr +:+ "'").
Definition TypeError (text : string) : exn := Exn "TypeError" true text.
Definition KeyError (text : string) : exn := Exn "KeyError" true text.

(** Results of code that may raise. *)
Definition Res (A : Type) : Type := (A + exn)%type.
Definition ok {A} (a : A) : Res A := inl a.
Definition raise {A} (e : exn) : Res A := inr e.
Definition res_bind {A B} (c : Res A) (k : A -> Res B) : Res B :=
  match c with inl a => k a | inr e => inr e end.

Definition type_name (v : value) : string :=
  match v with
  | VNone => "NoneType" | VBool _ => "bool" | VInt _ => "int"
  | VFloat _ => "float" | VStr _ => "str"
  | VDatetime _ => "datetime.datetime" | VTuple _ => "tuple"
  | VObject cls _ => cls
  end.

(** [bool(v)]. *)
Definition truthy (v : value) : bool :=
  match v with
  | VNone => false
  | VBool b => b
  | VInt z => negb (z =? 0)%Z
  | VFloat (S754_zero _) => false
  | VFloat _ => true
  | VStr s => negb (String.eqb s "")
  | VDatetime _ => true
  | VTuple items => match items with [] => false | _ => true end
  | VObject _ _ => true
  end.

(** [any(v)]: [v] has to be iterable. *)
Definition any_ (v : value) : Res bool :=
  match v with
  | VTuple items => ok (existsb truthy items)
  | VStr s => ok (negb (String.eqb s ""))
  | _ => raise (TypeError ("'" +:+ type_name v +:+ "' object is not iterable"))
  end.

(** [isinstance(v, (str, int, float, type(None), datetime.datetime))];
    [bool] is a subclass of [int]. *)
Definition isinstance_scalar (v : value) : bool :=
  match v with
  | VStr _ | VInt _ | VBool _ | VFloat _ | VNone | VDatetime _ => true
  | VTuple _ | VObject _ _ => false
  end.

End Py.
Export Py.

Notation "'let*' x ':=' c 'in' k" := (res_bind c (fun x => k))
  (at level 10, x pattern, c at level 100, k at level 200).

(* ================================================================== *)
(** * The database collaborator and the observable events *)
(* ================================================================== *)

Module DB.

(** What a cursor does when called: [None] for a normal return,
    [Some e] when the call raises [e].  [cur_commit] is [None] for a
    cursor class without a [commit] attribute. *)
Record Cursor := {
  cur_class : string;
  cur_execute : string -> list value -> option exn;
  cur_commit : option (option exn);
  cur_close : option exn
}.

Record Connection := {
  conn_cursor : Res Cursor;
  conn_commit : option exn;
  conn_close : option exn
}.

Inductive target := OnConnection | OnCursor.

Inductive method :=
| m_cursor
| m_execute (query : string) (params : list value)
| m_commit
| m_close.

(** Everything the outside can observe: the calls received by the
    collaborator, in order, and the tracebacks printed on
    [sys.stderr]. *)
Inductive event :=
| Called (t : target) (m : method)
| StderrTraceback (e : exn).

(** Effectful code: the events so far go in, the events after the
    call come out with the result. *)
Definition M (A : Type) : Type := list event -> list event * Res A.

Definition ret {A} (a : A) : M A := fun tr => (tr, ok a).
Definition bind {A B} (c : M A) (k : A -> M B) : M B :=
  fun tr => match c tr with
            | (tr', inl a) => k a tr'
            | (tr', inr e) => (tr', inr e)
            end.
Definition lift {A} (r : Res A) : M A := fun tr => (tr, r).
Definition call (t : target) (m : method) (outcome : option exn) : M unit :=
  fun tr => (tr ++ [Called t m],
             match outcome with None => ok tt | Some e => raise e end).

(** [try: body / except Exception: handler]: only the exceptions whose
    class derives from [Exception] are handled. *)
Definition try_except_Exception (body : M unit) (handler : exn -> M unit)
  : M unit :=
  fun tr => match body tr with
            | (tr', inl u) => (tr', inl u)
            | (tr', inr e) =>
                if exn_is_Exception e then handler e tr' else (tr', inr e)
            end.

(** [traceback.print_exc(file=sys.stderr)] for the exception [e] being
    handled.  [write] is what writing to [sys.stderr] does: the
    traceback is written, or the write raises (a closed or broken
    stream) and nothing of it is observed. *)
Definition print_exc (write : exn -> option exn) (e : exn) : M unit :=
  fun tr => match write e with
            | None => (tr ++ [StderrTraceback e], ok tt)
            | Some e' => (tr, raise e')
            end.

Definition cursor_execute (c : Cursor) (q : string) (ps : list value) : M unit :=
  call OnCursor (m_execute q ps) (cur_execute c q ps).

(** [cursor.commit()]: the attribute is looked up first. *)
Definition cursor_commit (c : Cursor) : M unit :=
  match cur_commit c with
  | None => lift (raise (AttributeError (cur_class c) "commit"))
  | Some outcome => call OnCursor m_commit outcome
  end.

Definition cursor_close (c : Cursor) : M unit :=
  call OnCursor m_close (cur_close c).

Definition connection_cursor (conn : Connection) : M Cursor :=
  fun tr => (tr ++ [Called OnConnection m_cursor], conn_cursor conn).

Definition connection_close (conn : Connection) : M unit :=
  call OnConnection m_close (conn_close conn).

End DB.
Export DB.

Notation "'let+' x ':=' c 'in' k" := (DB.bind c (fun x => k))
  (at level 10, x pattern, c at level 100, k at level 200).
Notation "c ';;' k" := (DB.bind c (fun _ => k))
  (at level 100, k at level 200, right associativity).

(* ================================================================== *)
(** * The host logging library *)
(* ================================================================== *)

Module Logging.

(** A [LogRecord] is its [__dict__]. *)
Abbreviation LogRecord := (gmap string value).

(** [getattr(record, attr)]. *)
Definition getattr (record : LogRecord) (attr : string) : Res value :=
  match record !! attr with
  | Some v => ok v
  | None => raise (AttributeError "LogRecord" attr)
  end.

(** The attribute names of [logging.makeLogRecord({})] after
    [logging.Formatter().format(record)], in the order in which
    [LogRecord.__init__] and [Formatter.format] assign them
    ([taskName] exists since CPython 3.12). *)
Definition blank_record_keys : list string :=
  [ "name"; "msg"; "args"; "levelname"; "levelno"; "pathname"; "filename";
    "module"; "exc_info"; "exc_text"; "stack_info"; "lineno"; "funcName";
    "created"; "msecs"; "relativeCreated"; "thread"; "threadName";
    "processName"; "process"; "taskName"; "message" ].

(** The functions of the logging core and of the standard library that
    [emit] calls.  [format_record] is [Handler.format(record)]: it
    fills in [record.message] (and [record.exc_text]) and its string
    result is discarded by the caller, so it is given by the record it
    leaves behind.  [stderr_write e] is the outcome of writing the
    traceback of [e] to [sys.stderr]: [None] when it is written,
    [Some e'] when the write raises [e']. *)
Record Host := {
  format_record : LogRecord -> Res LogRecord;
  formatException : value -> Res string;
  fromtimestamp : value -> Res datetime;
  str_of : value -> Res string;
  stderr_write : exn -> option exn
}.

Definition DEBUG : Z := 10.
Definition WARNING : Z := 30.
Definition NOTSET : Z := 0.

End Logging.
Export Logging.

(* ================================================================== *)
(** * logutils: the database handler *)
(* ================================================================== *)

(** [LOG_TABLE_MAP]. *)
Definition LOG_TABLE_MAP : list (string * string) :=
  [ ("date", "created");
    ("logger", "name");
    ("module", "module");
    ("func_name", "funcName");
    ("line", "lineno");
    ("level", "levelno");
    ("level_name", "levelname");
    ("message", "message");
    ("traceback", "exc_info") ].

(** Iterating a dict gives its keys; [dict.values()] its values. *)
Definition keys (m : list (string * string)) : list string := m.*1.
Definition values (m : list (string * string)) : list string := m.*2.

Module DatabaseHandler.

(** Class body: [default_mapping = {k.lower(): k for k in record.__dict__}],
    evaluated once, when the class is created. *)
Definition default_mapping : gmap string string :=
  foldl (fun m k => <[PyStr.lower k := k]> m) ∅ blank_record_keys.

(** [insert_query]. *)
Definition insert_query : string :=
  "INSERT INTO {table} ({cols}) VALUES ({values});".

Record t := {
  connection : Connection;
  table : string;
  mapping : list (string * string);
  cursor : Cursor;
  level : Z
}.

(** [mapping or LOG_TABLE_MAP]: [None] and the empty dict are falsy. *)
Definition mapping_or (m : option (list (string * string)))
  (dflt : list (string * string)) : list (string * string) :=
  match m with
  | None | Some [] => dflt
  | Some m' => m'
  end.

(** [set(self.mapping.values()) - set(self.default_mapping.values())]. *)
Definition diff (mapping : list (string * string)) : gset string :=
  list_to_set (values mapping) ∖ map_img default_mapping.

Definition leb_str (x y : string) : Prop := String.leb x y = true.

#[global] Instance leb_str_dec x y : Decision (leb_str x y).
Proof. unfold leb_str. apply _. Defined.

(** [sorted(d)] for a set of strings. *)
Definition sorted (d : gset string) : list string :=
  merge_sort leb_str (elements d).

(** The text of the [AttributeError] raised for a non-empty [diff]. *)
Definition invalid_mapping_text (d : gset string) : string :=
  "'" +:+ "LogRecord" +:+ "' object has no attribute"
      +:+ (if (1 <? size d)%nat then "s" else "") +:+ " "
      +:+ PyStr.join ", " (map PyStr.quoted (sorted d)).

(** [__init__(self, connection, table, mapping=None)]. *)
Definition init (connection : Connection) (table : string)
  (mapping : option (list (string * string))) : M t :=
  let mapping := mapping_or mapping LOG_TABLE_MAP in
  let d := diff mapping in
  if bool_decide (d = ∅) then
    let+ cursor := connection_cursor connection in
    ret {| connection := connection; table := table; mapping := mapping;
           cursor := cursor; level := NOTSET |}
  else
    lift (raise (Exn "AttributeError" true (invalid_mapping_text d))).

Section Emit.
Context (host : Host).

(** The statement text built at the start of [emit]. *)
Definition query (self : t) : Res string :=
  match PyStr.format insert_query
          [ ("table", table self);
            ("cols", PyStr.join ", " (keys (mapping self)));
            ("values", PyStr.join ", "
               (map (fun _ => "?") (seq 0 (length (mapping self))))) ]
  with
  | Some q => ok q
  | None => raise (KeyError "format")
  end.

(** One turn of the loop over [self.mapping.values()]: the parameter
    appended for the attribute [attr]. *)
Definition param (record : LogRecord) (attr : string) : Res value :=
  let* value := getattr record attr in
  if String.eqb attr "created" then
    let* d := fromtimestamp host value in ok (VDatetime d)
  else if String.eqb attr "exc_info" || String.eqb attr "exc_text" then
    let* exc_info := getattr record "exc_info" in
    let* cond := (if truthy exc_info then any_ exc_info else ok false) in
    if cond then
      let* text := formatException host exc_info in
      ok (VStr (PyStr.join "|" (PyStr.splitlines text)))
    else ok VNone
  else if match value with
          | VStr s => String.eqb (PyStr.strip s) ""
          | _ => false
          end then ok VNone
  else if isinstance_scalar value then ok value
  else let* s := str_of host value in ok (VStr s).

(** The loop: parameters are appended in the order of the mapping. *)
Fixpoint params (record : LogRecord) (attrs : list string)
  : Res (list value) :=
  match attrs with
  | [] => ok []
  | attr :: rest =>
      let* p := param record attr in
      let* ps := params record rest in
      ok (p :: ps)
  end.

(** The body of the [try] statement of [emit]. *)
Definition emit_try (self : t) (record : LogRecord) : M unit :=
  let+ record := lift (format_record host record) in
  let+ q := lift (query self) in
  let+ ps := lift (params record (values (mapping self))) in
  cursor_execute (cursor self) q ps ;;
  cursor_commit (cursor self).

(** [emit(self, record)]: the call of [traceback.print_exc] in the
    [except] clause is not guarded, what it raises leaves [emit]. *)
Definition emit (self : t) (record : LogRecord) : M unit :=
  try_except_Exception (emit_try self record) (print_exc (stderr_write host)).

End Emit.

(** [close(self)]; the generic [Handler.close] touches neither the
    database nor [sys.stderr]. *)
Definition close (self : t) : M unit :=
  cursor_close (cursor self) ;;
  connection_close (connection self).

End DatabaseHandler.

(* ================================================================== *)
(** * Paths: [os.fspath] and [os.path.abspath] (POSIX) *)
(* ================================================================== *)

Module PosixPath.

(** A [filename] argument: a [str] or a [pathlib.Path] (given by the
    string [os.fspath] returns for it). *)
Inductive path_arg :=
| PathStr (s : string)
| PathObj (s : string).

Definition fspath (p : path_arg) : string :=
  match p with PathStr s | PathObj s => s end.

(** [filename == other] for a [str] on the left: a [pathlib.Path] never
    equals a string. *)
Definition str_eq_arg (s : string) (p : path_arg) : bool :=
  match p with
  | PathStr s' => String.eqb s s'
  | PathObj _ => false
  end.

Definition startswith_slash (s : string) : bool :=
  match s with String c _ => Ascii.eqb c "/" | EmptyString => false end.

Fixpoint endswith_slash (s : string) : bool :=
  match s with
  | EmptyString => false
  | String c EmptyString => Ascii.eqb c "/"
  | String _ s' => endswith_slash s'
  end.

(** [s.split('/')]. *)
Fixpoint split_slash (cur : string) (s : string) : list string :=
  match s with
  | EmptyString => [cur]
  | String c s' =>
      if Ascii.eqb c "/" then cur :: split_slash "" s'
      else split_slash (cur +:+ String c "") s'
  end.

(** [posixpath.join(a, b)]. *)
Definition join (a b : string) : string :=
  if startswith_slash b then b
  else if String.eqb a "" || endswith_slash a then a +:+ b
  else a +:+ "/" +:+ b.

(** The loop of [posixpath.normpath] over the components; [new_comps]
    is kept with its last element first. *)
Fixpoint norm_comps (initial_slashes : nat) (new_comps : list string)
  (comps : list string) : list string :=
  match comps with
  | [] => rev new_comps
  | comp :: rest =>
      if String.eqb comp "" || String.eqb comp "." then
        norm_comps initial_slashes new_comps rest
      else if negb (String.eqb comp "..")
              || (Nat.eqb initial_slashes 0
                  && match new_comps with [] => true | _ => false end)
              || match new_comps with
                 | last :: _ => String.eqb last ".."
                 | [] => false
                 end
      then norm_comps initial_slashes (comp :: new_comps) rest
      else norm_comps initial_slashes (tl new_comps) rest
  end.

Definition count_initial_slashes (path : string) : nat :=
  match path with
  | String "/" (String "/" (String "/" _)) => 1
  | String "/" (String "/" _) => 2
  | String "/" _ => 1
  | _ => 0
  end.

(** [posixpath.normpath(path)]. *)
Definition normpath (path : string) : string :=
  if String.eqb path "" then "."
  else
    let initial_slashes := count_initial_slashes path in
    let comps := norm_comps initial_slashes [] (split_slash "" path) in
    let path' :=
      PyStr.join "/" (repeat "" initial_slashes) +:+
      (match initial_slashes with 0 => "" | _ => "/" end) +:+
      PyStr.join "/" comps in
    if String.eqb path' "" then "." else path'.

(** [posixpath.abspath(path)] in the working directory [cwd]. *)
Definition abspath (cwd : string) (path : string) : string :=
  normpath (if startswith_slash path then path else join cwd path).

End PosixPath.
Export PosixPath.

(* ================================================================== *)
(** * [logging.Formatter]: the check of a format of style [%] *)
(* ================================================================== *)

(** [logging.Formatter(fmt)] validates its format (CPython 3.8 and
    later): the format has to contain a match of
    [%\(\w+\)[#0+ -]*(\*|\d+)?(\.(\*|\d+))?[diouxefgcrsa%]], case
    ignored.  The flags, the width and the precision are each followed
    by a character outside their own class, so that taking the longest
    run of each decides whether there is a match. *)

Module Formatter.

Definition is_digit (c : ascii) : bool :=
  let n := PyStr.code c in ((48 <=? n) && (n <=? 57))%N.

(** The characters the class [\w] matches, among the code points below
    256: letters, digits and other numeric characters, the underscore. *)
Definition is_word (c : ascii) : bool :=
  let n := PyStr.code c in
  ((48 <=? n) && (n <=? 57) || (65 <=? n) && (n <=? 90)
   || (97 <=? n) && (n <=? 122) || (n =? 95)
   || (n =? 170) || (n =? 178) || (n =? 179) || (n =? 181)
   || (n =? 185) || (n =? 186) || (188 <=? n) && (n <=? 190)
   || (192 <=? n) && (n <=? 214) || (216 <=? n) && (n <=? 246)
   || (248 <=? n))%N.

(** The flags [#], [0], [+], the space and [-]. *)
Definition is_flag (c : ascii) : bool :=
  let n := PyStr.code c in
  ((n =? 35) || (n =? 48) || (n =? 43) || (n =? 32) || (n =? 45))%N.

(** The conversion types [diouxefgcrsa%], in either case. *)
Definition is_conversion (c : ascii) : bool :=
  existsb (Ascii.eqb (PyStr.lower_char c))
    (list_ascii_of_string "diouxefgcrsa%").

Fixpoint skip (p : ascii -> bool) (s : string) : string :=
  match s with
  | EmptyString => EmptyString
  | String c s' => if p c then skip p s' else s
  end.

Definition starts_with_word (s : string) : bool :=
  match s with
  | String c _ => is_word c
  | EmptyString => false
  end.

Definition starts_with_conversion (s : string) : bool :=
  match s with
  | String c _ => is_conversion c
  | EmptyString => false
  end.

(** A match of [PercentStyle.validation_pattern] at the start of [s]:
    [%(name)], flags, an optional width, an optional precision, a
    conversion type. *)
Definition match_here (s : string) : bool :=
  match s with
  | String "%" (String "(" name) =>
      starts_with_word name
      && match skip is_word name with
         | String ")" after_name =>
             let after_flags := skip is_flag after_name in
             let after_width :=
               match after_flags with
               | String "*" r => r
               | _ => skip is_digit after_flags
               end in
             match after_width with
             | String "." precision =>
                 match precision with
                 | String "*" r => starts_with_conversion r
                 | String d _ =>
                     is_digit d
                     && starts_with_conversion (skip is_digit precision)
                 | EmptyString => false
                 end
             | _ => starts_with_conversion after_width
             end
         | _ => false
         end
  | _ => false
  end.

(** [validation_pattern.search(fmt)]. *)
Fixpoint search (s : string) : bool :=
  match_here s
  || match s with
     | EmptyString => false
     | String _ s' => search s'
     end.

Definition default_format : string := "%(message)s".

(** [logging.Formatter(fmt)]: the format kept is [fmt or
    default_format], and it is validated; the result is the format of
    the formatter. *)
Definition new (fmt : string) : Res string :=
  let fmt := if String.eqb fmt "" then default_format else fmt in
  if search fmt then ok fmt
  else raise (Exn "ValueError" true
                ("Invalid format '" +:+ fmt +:+ "' for '%' style")).

(** The formats [logging.Formatter] accepts. *)
Definition valid (fmt : string) : bool :=
  match new fmt with
  | inl _ => true
  | inr _ => false
  end.

End Formatter.

(* ================================================================== *)
(** * Loggers and their handlers *)
(* ================================================================== *)

Module Loggers.

Inductive stream :=
| sys_stderr
| sys_stdout
| other_stream (ident : nat).

(** The handler classes: [FileHandler] is a subclass of [StreamHandler],
    [DatabaseHandler] and the handlers of other libraries derive from
    [Handler] directly.  A [FileHandler] is given by its [baseFilename]
    and by the [mode] and [encoding] its constructor received. *)
Inductive handler_kind :=
| StreamHandler (stream : stream)
| FileHandler (baseFilename : string) (mode : string) (encoding : option string)
| DatabaseHandler_ (h : DatabaseHandler.t)
| OtherHandler (cls : string).

(** A handler object: [h_ident] is the identity of the object. *)
Record Handler := {
  h_ident : nat;
  h_kind : handler_kind;
  h_level : Z;
  h_formatter : option string
}.

Definition isinstance_StreamHandler (h : Handler) : bool :=
  match h_kind h with
  | StreamHandler _ | FileHandler _ _ _ => true
  | _ => false
  end.

Definition isinstance_FileHandler (h : Handler) : bool :=
  match h_kind h with
  | FileHandler _ _ _ => true
  | _ => false
  end.

Definition baseFilename_of (h : Handler) : string :=
  match h_kind h with
  | FileHandler f _ _ => f
  | _ => ""
  end.

Record Logger := {
  lg_level : Z;
  lg_handlers : list Handler
}.

(** The process: the root logger, the loggers created so far by name,
    the number of handler objects created so far, the working
    directory. *)
Record Process := {
  root : Logger;
  loggerDict : gmap string Logger;
  objects : nat;
  cwd : string
}.

(** The logger [logging.getLogger(name)] returns: the root logger for
    no name, an empty name or the name of the root logger. *)
Definition logger_key (name : option string) : option string :=
  match name with
  | None => None
  | Some n => if String.eqb n "" || String.eqb n "root" then None else Some n
  end.

Definition new_logger : Logger := {| lg_level := NOTSET; lg_handlers := [] |}.

Definition get (key : option string) (p : Process) : Logger :=
  match key with
  | None => root p
  | Some n => default new_logger (loggerDict p !! n)
  end.

Definition put (key : option string) (lg : Logger) (p : Process) : Process :=
  match key with
  | None => {| root := lg; loggerDict := loggerDict p;
               objects := objects p; cwd := cwd p |}
  | Some n => {| root := root p; loggerDict := <[n := lg]> (loggerDict p);
                 objects := objects p; cwd := cwd p |}
  end.

(** [logging.getLogger(name)] creates the logger on first use. *)
Definition getLogger (name : option string) (p : Process) : Process :=
  let key := logger_key name in
  put key (get key p) p.

Definition setLevel (key : option string) (lvl : Z) (p : Process) : Process :=
  let lg := get key p in
  put key {| lg_level := lvl; lg_handlers := lg_handlers lg |} p.

(** [Logger.addHandler]: appended unless this very object is attached
    already. *)
Definition addHandler (key : option string) (h : Handler) (p : Process)
  : Process :=
  let lg := get key p in
  if existsb (fun h' => Nat.eqb (h_ident h') (h_ident h)) (lg_handlers lg)
  then p
  else put key {| lg_level := lg_level lg;
                  lg_handlers := lg_handlers lg ++ [h] |} p.

(** The process once one more object has been created. *)
Definition created (p : Process) : Process :=
  {| root := root p; loggerDict := loggerDict p;
     objects := S (objects p); cwd := cwd p |}.

(** What [open(baseFilename, mode, encoding=encoding)] does when a
    [FileHandler] is created: [None] when the file is opened, [Some e]
    when it raises [e] (a path that cannot be opened, an invalid mode,
    an unknown encoding). *)
Definition FileSystem : Type := string -> string -> option string -> option exn.

(** The identities of the attached handlers are those of objects that
    have been created. *)
Definition bounded (n : nat) (hs : list Handler) : Prop :=
  Forall (fun h => h_ident h < n) hs.

Definition wf (p : Process) : Prop :=
  forall key : option string, bounded (objects p) (lg_handlers (get key p)).

End Loggers.
Export Loggers.

(* ================================================================== *)
(** * logutils: the set-up helpers *)
(* ================================================================== *)

(** [setup_file_logger(filename, name, mode, encoding, level_logger,
    level_handler, fmt)].  The handler object exists from the moment
    [logging.FileHandler] is called; opening the file and creating the
    formatter may raise, and what the helper has done before stays
    done: the result is the process and the outcome. *)
Definition setup_file_logger (fs : FileSystem) (filename : path_arg)
  (name : option string) (mode : string) (encoding : option string)
  (level_logger : option Z) (level_handler : Z) (fmt : string) (p : Process)
  : Process * Res unit :=
  let log := logger_key name in
  let p := getLogger name p in
  let p := match level_logger with
           | Some lvl => setLevel log lvl p
           | None => p
           end in
  if existsb (fun h => isinstance_FileHandler h
                       && str_eq_arg (baseFilename_of h) filename)
       (lg_handlers (get log p))
  then (p, ok tt)
  else
    let baseFilename := abspath (cwd p) (fspath filename) in
    let ident := objects p in
    let p := created p in
    match fs baseFilename mode encoding with
    | Some e => (p, raise e)
    | None =>
        match Formatter.new fmt with
        | inr e => (p, raise e)
        | inl format =>
            let handler :=
              {| h_ident := ident;
                 h_kind := FileHandler baseFilename mode encoding;
                 h_level := level_handler;
                 h_formatter := Some format |} in
            (addHandler log handler p, ok tt)
        end
    end.

(** [setup_stream_logger(name, stream, level_logger, level_handler, fmt)]:
    creating the formatter may raise. *)
Definition setup_stream_logger (name : option string) (stream : option stream)
  (level_logger : option Z) (level_handler : Z) (fmt : string) (p : Process)
  : Process * Res unit :=
  let log := logger_key name in
  let p := getLogger name p in
  let p := match level_logger with
           | Some lvl => setLevel log lvl p
           | None => p
           end in
  if existsb isinstance_StreamHandler (lg_handlers (get log p))
  then (p, ok tt)
  else
    let ident := objects p in
    let p := created p in
    match Formatter.new fmt with
    | inr e => (p, raise e)
    | inl format =>
        let handler :=
          {| h_ident := ident;
             h_kind := StreamHandler (default sys_stderr stream);
             h_level := level_handler;
             h_formatter := Some format |} in
        (addHandler log handler p, ok tt)
    end.

(** The first two statements of both helpers: the logger is resolved
    and its level is set when one is given. *)
Definition resolve (name : option string) (level_logger : option Z)
  (p : Process) : Process :=
  match level_logger with
  | Some lvl => setLevel (logger_key name) lvl (getLogger name p)
  | None => getLogger name p
  end.

(** The arguments of one call of [setup_stream_logger] on a logger, and
    a series of such calls, one after the other, by a caller that goes
    on after a call that raised. *)
Record stream_call := {
  sc_stream : option stream;
  sc_level_logger : option Z;
  sc_level_handler : Z;
  sc_fmt : string
}.

Definition stream_calls (name : option string) (calls : list stream_call)
  (p : Process) : Process :=
  foldl (fun p c =>
           (setup_stream_logger name (sc_stream c) (sc_level_logger c)
              (sc_level_handler c) (sc_fmt c) p).1)
    p calls.

(** The handlers attached to the logger called [name]. *)
Definition handlers_of (name : option string) (p : Process) : list Handler :=
  lg_handlers (get (logger_key name) p).

(** A freshly started process: the root logger at [WARNING], no other
    logger, no handler. *)
Definition fresh_process (cwd : string) : Process :=
  {| root := {| lg_level := WARNING; lg_handlers := [] |};
     loggerDict := ∅; objects := 0; cwd := cwd |}.

(* ================================================================== *)
(** * logutils: the table definition and the database set-up helper *)
(* ================================================================== *)

(** [LOG_TABLE_DEFINITION]. *)
Definition LOG_TABLE_DEFINITION : string :=
"CREATE TABLE {table_name} (
      log_id      INT           NOT NULL IDENTITY
    , date        DATETIME      NOT NULL
    , logger      VARCHAR(100)      NULL
    , module      VARCHAR(100)  NOT NULL
    , func_name   VARCHAR(100)  NOT NULL
    , line        INT               NULL
    , level       INT           NOT NULL
    , level_name  VARCHAR(100)  NOT NULL
    , message     VARCHAR(400)      NULL
    , traceback   VARCHAR(4000)     NULL

    , CONSTRAINT {primary_key} PRIMARY KEY (log_id)
);".

(** [make_log_table_definition(table_name, primary_key)]. *)
Definition make_log_table_definition (table_name primary_key : string)
  : Res string :=
  match PyStr.format LOG_TABLE_DEFINITION
          [("table_name", table_name); ("primary_key", primary_key)]
  with
  | Some text => ok text
  | None => raise (KeyError "format")
  end.

(** The fixed text between the two names of the table definition, and
    after the name of the primary key. *)
Definition table_columns : string :=
" (
      log_id      INT           NOT NULL IDENTITY
    , date        DATETIME      NOT NULL
    , logger      VARCHAR(100)      NULL
    , module      VARCHAR(100)  NOT NULL
    , func_name   VARCHAR(100)  NOT NULL
    , line        INT               NULL
    , level       INT           NOT NULL
    , level_name  VARCHAR(100)  NOT NULL
    , message     VARCHAR(400)      NULL
    , traceback   VARCHAR(4000)     NULL

    , CONSTRAINT ".

Definition table_end : string :=
" PRIMARY KEY (log_id)
);".

(** [handler.setLevel(level)] on a database handler. *)
Definition handler_setLevel (lvl : Z) (d : DatabaseHandler.t)
  : DatabaseHandler.t :=
  {| DatabaseHandler.connection := DatabaseHandler.connection d;
     DatabaseHandler.table := DatabaseHandler.table d;
     DatabaseHandler.mapping := DatabaseHandler.mapping d;
     DatabaseHandler.cursor := DatabaseHandler.cursor d;
     DatabaseHandler.level := lvl |}.

(** [setup_database_logger(connection, table, name, attrs, level_logger,
    level_handler)].  The helper changes the process and talks to the
    connection, and what it has changed stays changed when it raises:
    the result is the process, the events and the outcome.  The handler
    object exists from the moment the class is called, before
    [__init__] runs. *)
Definition setup_database_logger (connection : Connection) (table : string)
  (name : option string) (attrs : option (list (string * string)))
  (level_logger : option Z) (level_handler : Z) (p : Process)
  (tr : list event) : Process * list event * Res unit :=
  let log := logger_key name in
  let p := getLogger name p in
  let p := match level_logger with
           | Some lvl => setLevel log lvl p
           | None => p
           end in
  let ident := objects p in
  let p := created p in
  match DatabaseHandler.init connection table attrs tr with
  | (tr, inr e) => (p, tr, raise e)
  | (tr, inl d) =>
      let handler :=
        {| h_ident := ident;
           h_kind := DatabaseHandler_ (handler_setLevel level_handler d);
           h_level := level_handler;
           h_formatter := None |} in
      (addHandler log handler p, tr, ok tt)
  end.

(** [prefix] is how [s] starts, [sub] occurs somewhere in [s]. *)
Fixpoint startswith (prefix s : string) : bool :=
  match prefix, s with
  | EmptyString, _ => true
  | String a prefix', String b s' => Ascii.eqb a b && startswith prefix' s'
  | String _ _, EmptyString => false
  end.

Fixpoint contains (sub s : string) : bool :=
  startswith sub s
  || match s with
     | EmptyString => false
     | String _ s' => contains sub s'
     end.

(* ================================================================== *)
(** * Concrete collaborators and records *)
(* ================================================================== *)

Module Sample.

(** A cursor in the style of pyodbc: it has a [commit] method. *)
Definition committing_cursor : Cursor :=
  {| cur_class := "pyodbc.Cursor";
     cur_execute := fun _ _ => None;
     cur_commit := Some None;
     cur_close := None |}.

(** A cursor with the methods of DB API 2.0 only (as [sqlite3.Cursor]):
    [commit] is a method of the connection, not of the cursor. *)
Definition dbapi_cursor : Cursor :=
  {| cur_class := "sqlite3.Cursor";
     cur_execute := fun _ _ => None;
     cur_commit := None;
     cur_close := None |}.


Definition connection_of (c : Cursor) : Connection :=
  {| conn_cursor := ok c; conn_commit := None; conn_close := None |}.


Definition newline : string := String PyStr.LF "".

(** A host: [format_record] sets [message] to [msg], the traceback
    text is the constant [traceback_text], [sys.stderr] can be written. *)
Definition host (traceback_text : string) : Host :=
  {| format_record := fun r => ok (<["message" := default VNone (r !! "msg")]> r);
     formatException := fun _ => ok traceback_text;
     fromtimestamp := fun v =>
       match v with
       | VInt z => ok (Datetime 1970 1 1 0 0 z 0)
       | VFloat _ => ok (Datetime 1970 1 1 0 0 0 0)
       | _ => raise (TypeError "an integer is required")
       end;
     str_of := fun v => ok ("<" +:+ type_name v +:+ ">");
     stderr_write := fun _ => None |}.



Definition traceback_text : string :=
  "Traceback (most recent call last):" +:+ newline +:+ "ValueError: boom".

(** The traceback text of an exception whose message ends with a line
    feed, [ValueError("boom\n")]: [formatException] removes one of the
    two line feeds at the end. *)
Definition traceback_text_nl : string :=
  "Traceback (most recent call last):" +:+ newline +:+ "ValueError: boom"
  +:+ newline.

Definition exc_triple : value :=
  VTuple [VObject "type" 1; VObject "ValueError" 2; VObject "traceback" 3].

Definition record (exc_info : value) : LogRecord :=
  list_to_map
    [ ("name", VStr "app"); ("msg", VStr "  ok  "); ("args", VTuple []);
      ("levelname", VStr "INFO"); ("levelno", VInt 20);
      ("module", VStr "   "); ("funcName", VStr "");
      ("lineno", VInt 7); ("created", VInt 42);
      ("exc_info", exc_info); ("exc_text", VNone) ].

(** A record with every attribute of the blank record. *)
Definition full_record (exc_info : value) : LogRecord :=
  list_to_map
    [ ("name", VStr "app"); ("msg", VStr "started"); ("args", VTuple []);
      ("levelname", VStr "INFO"); ("levelno", VInt 20);
      ("pathname", VStr "/srv/app/main.py"); ("filename", VStr "main.py");
      ("module", VStr "main"); ("exc_info", exc_info); ("exc_text", VNone);
      ("stack_info", VNone); ("lineno", VInt 7); ("funcName", VStr "run");
      ("created", VInt 42); ("msecs", VInt 0); ("relativeCreated", VInt 1);
      ("thread", VInt 1); ("threadName", VStr "MainThread");
      ("processName", VStr "MainProcess"); ("process", VInt 100);
      ("taskName", VNone); ("message", VStr "started") ].

(** A file system: [/] is a directory, the modes and the encodings are
    those listed, every other file can be opened. *)
Definition fs : FileSystem :=
  fun path mode encoding =>
    if String.eqb path "/" then
      Some (Exn "IsADirectoryError" true "[Errno 21] Is a directory: '/'")
    else if negb (existsb (String.eqb mode) ["a"; "w"; "x"; "a+"; "w+"]) then
      Some (Exn "ValueError" true ("invalid mode: '" +:+ mode +:+ "'"))
    else match encoding with
         | Some enc =>
             if existsb (String.eqb enc) ["utf-8"; "latin-1"; "ascii"]
             then None
             else Some (Exn "LookupError" true ("unknown encoding: " +:+ enc))
         | None => None
         end.

Definition two_columns : list (string * string) :=
  [("date", "created"); ("level", "levelno")].

Definition handler (c : Cursor) (m : list (string * string))
  : DatabaseHandler.t :=
  {| DatabaseHandler.connection := connection_of c;
     DatabaseHandler.table := "T";
     DatabaseHandler.mapping := m;
     DatabaseHandler.cursor := c;
     DatabaseHandler.level := NOTSET |}.

End Sample.

(* ================================================================== *)
(** * Facts about the string methods *)
(* ================================================================== *)

Section StringFacts.

Import PyStr.

Lemma append_cons c (s t : string) : String c s +:+ t = String c (s +:+ t).
Proof. reflexivity. Qed.

Lemma append_nil_l (s : string) : "" +:+ s = s.
Proof. reflexivity. Qed.

Lemma append_nil_r (s : string) : s +:+ "" = s.
Proof. induction s as [|c s IH]; [done | by rewrite append_cons, IH]. Qed.

Lemma append_assoc (s1 s2 s3 : string) :
  (s1 +:+ s2) +:+ s3 = s1 +:+ (s2 +:+ s3).
Proof. induction s1 as [|c s1 IH]; [done | by rewrite !append_cons, IH]. Qed.

Lemma eqb_empty (s : string) :
  String.eqb s "" = match s with EmptyString => true | _ => false end.
Proof. by destruct s. Qed.

(** [lstrip] leaves nothing exactly when every character is whitespace. *)
Lemma lstrip_empty (s : string) :
  String.eqb (lstrip s) "" = forallb_str isspace s.
Proof.
  induction s as [|c s IH]; simpl; [done|].
  destruct (isspace c) eqn:Hc; simpl; [exact IH | done].
Qed.

(** What [lstrip] leaves starts with a character that is not whitespace. *)
Lemma lstrip_head (s : string) c r :
  lstrip s = String c r -> isspace c = false.
Proof.
  induction s as [|c' s IH]; simpl; [done|].
  destruct (isspace c') eqn:Hc; [exact IH|].
  intros [= <- <-]. exact Hc.
Qed.

Lemma rstrip_head_nonspace c r :
  isspace c = false -> rstrip (String c r) <> "".
Proof.
  intros Hc. simpl. destruct (rstrip r); [by rewrite Hc | done].
Qed.

(** [s.strip() == ""] holds exactly for the empty and the
    whitespace-only strings. *)
Lemma strip_empty (s : string) :
  String.eqb (strip s) "" = forallb_str isspace s.
Proof.
  unfold strip. rewrite <- lstrip_empty.
  destruct (lstrip s) as [|c r] eqn:Hl; [done|].
  apply lstrip_head in Hl.
  rewrite (eqb_empty (String c r)), eqb_empty.
  pose proof (rstrip_head_nonspace c r Hl) as Hne.
  by destruct (rstrip (String c r)).
Qed.

(** A line being read is never lost. *)
Lemma splitlines_from_cur_nonempty (cur s : string) :
  cur <> "" -> splitlines_from false cur s <> [].
Proof.
  revert cur. induction s as [|c s IH]; intros cur Hcur; simpl.
  - by destruct cur.
  - destruct (is_linebreak c); [done|].
    apply IH. by destruct cur.
Qed.

Lemma splitlines_from_nonempty (cur : string) c s :
  splitlines_from false cur (String c s) <> [].
Proof.
  simpl. destruct (is_linebreak c); [done|].
  apply splitlines_from_cur_nonempty. by destruct cur.
Qed.

Lemma join_cons (sep p : string) (l : list string) :
  l <> [] -> join sep (p :: l) = p +:+ sep +:+ join sep l.
Proof. by destruct l. Qed.

(** For a text whose line boundaries are line feeds and which does not
    end in one, joining its lines with a delimiter replaces the line
    feeds by the delimiter. *)
Lemma join_splitlines_from (delim cur s : string) :
  only_LF s = true -> endswith LF s = false ->
  join delim (splitlines_from false cur s) = cur +:+ replace_char LF delim s.
Proof.
  revert cur. induction s as [|c s IH]; intros cur Hlf Hend.
  - destruct cur; simpl; [done | by rewrite append_nil_r].
  - unfold only_LF in Hlf. simpl in Hlf.
    apply andb_prop in Hlf as [Hc Hlf].
    assert (Hend' : endswith LF s = false).
    { destruct s; [done | exact Hend]. }
    simpl. destruct (is_linebreak c) eqn:Hb; simpl in Hc.
    + rewrite Hc. apply Ascii.eqb_eq in Hc as ->.
      destruct s as [|c' s'].
      { by vm_compute in Hend. }
      rewrite join_cons by apply splitlines_from_nonempty.
      change (Ascii.eqb LF CR) with false.
      by rewrite (IH "" Hlf Hend').
    + destruct (Ascii.eqb c LF) eqn:Hc'.
      { apply Ascii.eqb_eq in Hc' as ->. by vm_compute in Hb. }
      rewrite (IH _ Hlf Hend'), append_assoc. done.
Qed.

Lemma join_splitlines (delim s : string) :
  only_LF s = true -> endswith LF s = false ->
  join delim (splitlines s) = replace_char LF delim s.
Proof. intros. unfold splitlines. by rewrite join_splitlines_from. Qed.

End StringFacts.

(* ================================================================== *)
(** * The order used by [sorted] *)
(* ================================================================== *)

Section StringOrder.

Import DatabaseHandler.

Lemma ascii_compare_refl (a : ascii) : Ascii.compare a a = Eq.
Proof. unfold Ascii.compare. apply N.compare_refl. Qed.

Lemma ascii_compare_lt_trans (a b c : ascii) :
  Ascii.compare a b = Lt -> Ascii.compare b c = Lt -> Ascii.compare a c = Lt.
Proof.
  unfold Ascii.compare. rewrite !N.compare_lt_iff. apply N.lt_trans.
Qed.

Lemma string_compare_eq (s1 s2 : string) :
  String.compare s1 s2 = Eq <-> s1 = s2.
Proof.
  split; [apply String.compare_eq_iff|].
  intros <-. induction s1 as [|c s IH]; simpl; [done|].
  by rewrite ascii_compare_refl.
Qed.

Lemma string_compare_lt_trans (s1 s2 s3 : string) :
  String.compare s1 s2 = Lt -> String.compare s2 s3 = Lt ->
  String.compare s1 s3 = Lt.
Proof.
  revert s2 s3. induction s1 as [|a s1 IH]; intros [|b s2] [|c s3]; simpl;
    try done.
  destruct (Ascii.compare a b) eqn:Hab; try done;
    destruct (Ascii.compare b c) eqn:Hbc; try done; intros H12 H23.
  - apply Ascii.compare_eq_iff in Hab as ->.
    apply Ascii.compare_eq_iff in Hbc as ->.
    rewrite ascii_compare_refl. by apply IH with s2.
  - apply Ascii.compare_eq_iff in Hab as ->. by rewrite Hbc.
  - apply Ascii.compare_eq_iff in Hbc as <-. by rewrite Hab.
  - by rewrite (ascii_compare_lt_trans a b c).
Qed.

#[global] Instance leb_str_total : Total leb_str.
Proof. intros x y. apply String.leb_total. Qed.

#[global] Instance leb_str_antisymm : AntiSymm (=) leb_str.
Proof. intros x y. apply String.leb_antisym. Qed.

Lemma leb_str_cases (x y : string) :
  leb_str x y <-> String.compare x y = Lt \/ x = y.
Proof.
  unfold leb_str, String.leb. rewrite <- string_compare_eq.
  destruct (String.compare x y); intuition congruence.
Qed.

#[global] Instance leb_str_trans : Transitive leb_str.
Proof.
  intros x y z. rewrite !leb_str_cases.
  intros [Hxy | ->] [Hyz | ->]; eauto using string_compare_lt_trans.
Qed.

(** [sorted] gives the elements of the set, each once, in ascending
    order. *)
Lemma sorted_StronglySorted (d : gset string) :
  StronglySorted leb_str (sorted d).
Proof. apply StronglySorted_merge_sort; apply _. Qed.

Lemma sorted_Permutation (d : gset string) : sorted d ≡ₚ elements d.
Proof. apply merge_sort_Permutation. Qed.

Lemma sorted_NoDup (d : gset string) : NoDup (sorted d).
Proof. rewrite sorted_Permutation. apply NoDup_elements. Qed.

Lemma elem_of_sorted (d : gset string) (x : string) : x ∈ sorted d <-> x ∈ d.
Proof. rewrite sorted_Permutation. apply elem_of_elements. Qed.

Lemma length_sorted (d : gset string) : length (sorted d) = size d.
Proof. by rewrite sorted_Permutation. Qed.

End StringOrder.

(* ================================================================== *)
(** * Validation of the mapping *)
(* ================================================================== *)

Section Validation.

Import DatabaseHandler.

(** The keys of [default_mapping] are the lower-cased attribute names. *)
Lemma default_mapping_dom :
  dom default_mapping = list_to_set (map PyStr.lower blank_record_keys).
Proof. apply (bool_decide_unpack _). by vm_compute. Qed.

(** Its values are the attribute names as the record spells them. *)
Lemma default_mapping_img :
  map_img default_mapping = (list_to_set blank_record_keys : gset string).
Proof. apply (bool_decide_unpack _). by vm_compute. Qed.

Lemma elem_of_diff (mapping : list (string * string)) (x : string) :
  x ∈ diff mapping <-> x ∈ values mapping /\ x ∉ blank_record_keys.
Proof.
  unfold diff. rewrite default_mapping_img. set_solver.
Qed.

Lemma diff_empty (mapping : list (string * string)) :
  diff mapping = ∅ <-> Forall (fun v : string => v ∈ blank_record_keys) (values mapping).
Proof.
  rewrite Forall_forall. split.
  - intros Hd v Hv. destruct (decide (v ∈ blank_record_keys)) as [|Hn]; [done|].
    assert (v ∈ diff mapping) as Hin by (apply elem_of_diff; done).
    rewrite Hd in Hin. by apply not_elem_of_empty in Hin.
  - intros Hall. apply set_eq. intros x. rewrite elem_of_diff. split.
    + intros [Hin Hn]. destruct Hn. by apply Hall.
    + intros Hin. by apply not_elem_of_empty in Hin.
Qed.

Lemma LOG_TABLE_MAP_valid : diff LOG_TABLE_MAP = ∅.
Proof. apply (bool_decide_unpack _). by vm_compute. Qed.

End Validation.

(* ================================================================== *)
(** * Construction: the mapping is validated *)
(* ================================================================== *)

Section Construction.

Import DatabaseHandler.

(** C2.  Construction with a mapping all of whose values are attribute
    names of the record passes validation: the handler is built from the
    cursor the connection hands out, and nothing but the connection's
    own failure to do so can be raised.  Construction with a mapping
    that has an unknown value raises, before any cursor is opened, an
    [AttributeError] whose text lists the unknown names exactly: in
    ascending order, each once, after "attributes" when there are
    several and after "attribute" when there is one. *)
Theorem init_validates_mapping (conn : Connection) (tbl : string)
  (m : list (string * string)) (tr : list event) :
  (Forall (fun v : string => v ∈ blank_record_keys) (values m) ->
   init conn tbl (Some m) tr =
     (tr ++ [Called OnConnection m_cursor],
      match conn_cursor conn with
      | inl cur =>
          ok {| connection := conn; table := tbl;
                mapping := mapping_or (Some m) LOG_TABLE_MAP;
                cursor := cur; level := NOTSET |}
      | inr e => raise e
      end))
  /\
  (~ Forall (fun v : string => v ∈ blank_record_keys) (values m) ->
   exists unknown : list string,
     init conn tbl (Some m) tr =
       (tr, raise (Exn "AttributeError" true
                     ("'LogRecord' object has no attribute"
                      +:+ (if (1 <? length unknown)%nat then "s" else "")
                      +:+ " "
                      +:+ PyStr.join ", " (map PyStr.quoted unknown))))
     /\ StronglySorted leb_str unknown
     /\ NoDup unknown
     /\ forall x, x ∈ unknown <-> x ∈ values m /\ x ∉ blank_record_keys).
Proof.
  split.
  - intros Hall. unfold init.
    assert (diff (mapping_or (Some m) LOG_TABLE_MAP) = ∅) as ->.
    { destruct m; [apply LOG_TABLE_MAP_valid | by apply diff_empty]. }
    rewrite bool_decide_eq_true_2 by done.
    unfold DB.bind, connection_cursor, ret.
    by destruct (conn_cursor conn).
  - intros Hnot. exists (sorted (diff m)).
    assert (m <> []) as Hm by (intros ->; apply Hnot; constructor).
    assert (mapping_or (Some m) LOG_TABLE_MAP = m) as Hor by (by destruct m).
    assert (diff m <> ∅) as Hd by (by rewrite diff_empty).
    split; [|split; [|split]].
    + unfold init. rewrite Hor, bool_decide_eq_false_2 by done.
      unfold lift, invalid_mapping_text. by rewrite length_sorted.
    + apply sorted_StronglySorted.
    + apply sorted_NoDup.
    + intros x. by rewrite elem_of_sorted, elem_of_diff.
Qed.

Lemma init_validates_mapping_witness :
  init (Sample.connection_of Sample.committing_cursor) "T"
       (Some Sample.two_columns) [] =
    ([Called OnConnection m_cursor],
     ok (Sample.handler Sample.committing_cursor Sample.two_columns))
  /\
  exists unknown : list string,
    init (Sample.connection_of Sample.committing_cursor) "T"
         (Some [("a", "zz"); ("b", "name"); ("c", "funcname"); ("d", "zz")]) [] =
       ([], raise (Exn "AttributeError" true
                     ("'LogRecord' object has no attribute"
                      +:+ (if (1 <? length unknown)%nat then "s" else "")
                      +:+ " "
                      +:+ PyStr.join ", " (map PyStr.quoted unknown))))
     /\ StronglySorted leb_str unknown
     /\ NoDup unknown
     /\ forall x, x ∈ unknown <->
          x ∈ values [("a", "zz"); ("b", "name"); ("c", "funcname"); ("d", "zz")]
          /\ x ∉ blank_record_keys.
Proof.
  split.
  - apply (init_validates_mapping
             (Sample.connection_of Sample.committing_cursor) "T"
             Sample.two_columns []).
    vm_compute. repeat constructor.
  - apply (init_validates_mapping
             (Sample.connection_of Sample.committing_cursor) "T"
             [("a", "zz"); ("b", "name"); ("c", "funcname"); ("d", "zz")] []).
    intros Hall. apply Forall_cons_1 in Hall as [Hzz _].
    vm_compute in Hzz. by repeat (apply elem_of_cons in Hzz as [Hzz | Hzz]; [done|]);
      apply elem_of_nil in Hzz.
Defined.

End Construction.

Section KnownFields.

Import DatabaseHandler.

(** C4 (as the code has it).  The table built once in the class body
    has the lower-cased attribute names of the blank, formatted record
    as its keys and the names as the record spells them as its values;
    validation looks at the values: a mapping value is rejected exactly
    when it is not an attribute name in the record's own spelling, and a
    mapping passes exactly when all its values are such names. *)
Theorem validation_uses_record_spelling :
  dom default_mapping = list_to_set (map PyStr.lower blank_record_keys)
  /\ map_img default_mapping = (list_to_set blank_record_keys : gset string)
  /\ (forall (m : list (string * string)) (v : string),
        v ∈ diff m <-> v ∈ values m /\ v ∉ blank_record_keys)
  /\ (forall m : list (string * string),
        diff m = ∅ <->
        Forall (fun v : string => v ∈ blank_record_keys) (values m)).
Proof.
  split; [apply default_mapping_dom|].
  split; [apply default_mapping_img|].
  split; [apply elem_of_diff | apply diff_empty].
Qed.

(** C4 fails as stated: [funcName] is not in the lower-cased set and
    passes validation; [funcname] is in the lower-cased set and is
    rejected. *)
Lemma lower_cased_set_counterexample :
  ("funcName" ∉ (list_to_set (map PyStr.lower blank_record_keys) : gset string))
  /\ init (Sample.connection_of Sample.committing_cursor) "T"
          (Some [("func_name", "funcName")]) [] =
       ([Called OnConnection m_cursor],
        ok (Sample.handler Sample.committing_cursor
              [("func_name", "funcName")]))
  /\ ("funcname" ∈ (list_to_set (map PyStr.lower blank_record_keys) : gset string))
  /\ init (Sample.connection_of Sample.committing_cursor) "T"
          (Some [("func_name", "funcname")]) [] =
       ([], raise (Exn "AttributeError" true
                     "'LogRecord' object has no attribute 'funcname'")).
Proof.
  split; [apply (bool_decide_unpack _); by vm_compute|].
  split; [by vm_compute|].
  split; [apply (bool_decide_unpack _); by vm_compute|].
  by vm_compute.
Qed.

End KnownFields.

(* ================================================================== *)
(** * Emit *)
(* ================================================================== *)

Section EmitFacts.

Import DatabaseHandler.
Context (host : Host).

Lemma placeholders_repeat (n : nat) :
  map (fun _ : nat => "?") (seq 0 n) = repeat "?" n.
Proof.
  generalize 0. induction n as [|n IH]; intros k; simpl; [done|].
  by rewrite IH.
Qed.

(** The statement text, for any table and mapping. *)
Lemma query_text (self : t) :
  query self =
    ok ("INSERT INTO " +:+ table self +:+ " ("
        +:+ PyStr.join ", " (keys (mapping self))
        +:+ ") VALUES ("
        +:+ PyStr.join ", " (repeat "?" (length (keys (mapping self))))
        +:+ ");").
Proof.
  unfold query, keys. rewrite placeholders_repeat, length_fmap. reflexivity.
Qed.

(** The parameters come out one per mapping value, in the same order. *)
Lemma params_Forall2 (record : LogRecord) (attrs : list string)
  (ps : list value) :
  params host record attrs = ok ps <->
  Forall2 (fun attr p => param host record attr = ok p) attrs ps.
Proof.
  revert ps. induction attrs as [|attr attrs IH]; intros ps; simpl.
  - split.
    + intros [= <-]. constructor.
    + intros Hf. by apply Forall2_nil_inv_l in Hf as ->.
  - destruct (param host record attr) as [p|e] eqn:Hp; simpl.
    + destruct (params host record attrs) as [ps'|e] eqn:Hps; simpl.
      * split.
        -- intros [= <-]. constructor; [done | by apply IH].
        -- intros Hf. apply Forall2_cons_inv_l in Hf
             as (p' & ps'' & Hp' & Hf & ->).
           apply IH in Hf. unfold ok in *. congruence.
      * split; [done|].
        intros Hf. apply Forall2_cons_inv_l in Hf
          as (p' & ps'' & Hp' & Hf & ->).
        apply IH in Hf. done.
    + split; [done|].
      intros Hf. apply Forall2_cons_inv_l in Hf
        as (p' & ps'' & Hp' & Hf & ->). unfold ok in *. congruence.
Qed.

(** The [try] block, stage by stage. *)
Lemma emit_try_format_raises (self : t) (record : LogRecord) tr e :
  format_record host record = raise e ->
  emit_try host self record tr = (tr, raise e).
Proof. intros H. unfold emit_try, DB.bind, lift. by rewrite H. Qed.

Lemma emit_try_params_raise (self : t) (record r' : LogRecord) tr e :
  format_record host record = ok r' ->
  params host r' (values (mapping self)) = raise e ->
  emit_try host self record tr = (tr, raise e).
Proof.
  intros Hf Hp. unfold emit_try, DB.bind, lift.
  rewrite Hf. cbn. rewrite query_text. cbn. by rewrite Hp.
Qed.

Lemma emit_try_execute (self : t) (record r' : LogRecord) tr q ps :
  format_record host record = ok r' ->
  query self = ok q ->
  params host r' (values (mapping self)) = ok ps ->
  emit_try host self record tr =
    match cur_execute (cursor self) q ps with
    | Some e => (tr ++ [Called OnCursor (m_execute q ps)], raise e)
    | None =>
        match cur_commit (cursor self) with
        | None =>
            (tr ++ [Called OnCursor (m_execute q ps)],
             raise (AttributeError (cur_class (cursor self)) "commit"))
        | Some None =>
            (tr ++ [Called OnCursor (m_execute q ps); Called OnCursor m_commit],
             ok tt)
        | Some (Some e) =>
            (tr ++ [Called OnCursor (m_execute q ps); Called OnCursor m_commit],
             raise e)
        end
    end.
Proof.
  intros Hf Hq Hp.
  unfold emit_try, DB.bind, lift, cursor_execute, cursor_commit, call.
  rewrite Hf. cbn. rewrite Hq. cbn. rewrite Hp. cbn.
  destruct (cur_execute (cursor self) q ps); [done|].
  destruct (cur_commit (cursor self)) as [[e|]|]; simpl;
    by rewrite <- ?app_assoc.
Qed.

Lemma emit_handles (self : t) (record : LogRecord) tr tr' e :
  emit_try host self record tr = (tr', raise e) ->
  emit host self record tr =
    if exn_is_Exception e then
      match stderr_write host e with
      | None => (tr' ++ [StderrTraceback e], ok tt)
      | Some e' => (tr', raise e')
      end
    else (tr', raise e).
Proof.
  intros H. unfold emit, try_except_Exception, print_exc. rewrite H.
  unfold raise. by destruct (exn_is_Exception e).
Qed.

(** What [emit] adds after the calls of its [try] block: nothing, or
    the traceback of the exception the block raised. *)
Lemma emit_after_try (self : t) (record : LogRecord) tr calls r :
  emit_try host self record tr = (tr ++ calls, r) ->
  exists diag outcome,
    emit host self record tr = (tr ++ calls ++ diag, outcome)
    /\ (diag = []
        \/ exists e, diag = [StderrTraceback e] /\ outcome = ok tt
                     /\ r = raise e /\ exn_is_Exception e = true
                     /\ stderr_write host e = None).
Proof.
  intros Ht. destruct r as [[]|e].
  - exists [], (ok tt). rewrite app_nil_r. split; [|by left].
    unfold emit, try_except_Exception. by rewrite Ht.
  - rewrite (emit_handles _ _ _ _ _ Ht).
    destruct (exn_is_Exception e) eqn:He;
      [destruct (stderr_write host e) as [e'|] eqn:Hw|].
    + exists [], (raise e'). rewrite app_nil_r. eauto.
    + exists [StderrTraceback e], (ok tt). rewrite app_assoc.
      split; [done|]. right. by exists e.
    + exists [], (raise e). rewrite app_nil_r. eauto.
Qed.

Lemma emit_returns (self : t) (record : LogRecord) tr tr' :
  emit_try host self record tr = (tr', ok tt) ->
  emit host self record tr = (tr', ok tt).
Proof.
  intros H. unfold emit, try_except_Exception. by rewrite H.
Qed.

(** The [try] block of [emit] only adds calls: none, the [execute], or
    the [execute] and the [commit], both on the cursor. *)
Lemma emit_try_calls (self : t) (record : LogRecord) tr :
  exists calls r,
    emit_try host self record tr = (tr ++ calls, r)
    /\ (calls = []
        \/ exists q ps,
             query self = ok q
             /\ (calls = [Called OnCursor (m_execute q ps)]
                 \/ calls = [Called OnCursor (m_execute q ps);
                             Called OnCursor m_commit] )).
Proof.
  destruct (format_record host record) as [r'|e] eqn:Hf.
  2:{ exists [], (raise e). rewrite app_nil_r.
      split; [by apply emit_try_format_raises | by left]. }
  destruct (params host r' (values (mapping self))) as [ps|e] eqn:Hp.
  2:{ exists [], (raise e). rewrite app_nil_r.
      split; [by apply emit_try_params_raise with r' | by left]. }
  pose proof (query_text self) as Hq.
  rewrite (emit_try_execute _ _ _ tr _ _ Hf Hq Hp).
  destruct (cur_execute (cursor self) _ ps) as [e|];
    [|destruct (cur_commit (cursor self)) as [[e|]|]];
    eexists _, _; (split; [reflexivity|]); right; eauto.
Qed.

(** No call of [emit] reaches the [commit] of the connection. *)
Lemma emit_no_connection_commit (self : t) (record : LogRecord) tr :
  Called OnConnection m_commit ∈ (emit host self record tr).1 ->
  Called OnConnection m_commit ∈ tr.
Proof.
  destruct (emit_try_calls self record tr) as (calls & r & Ht & Hcalls).
  destruct (emit_after_try _ _ _ _ _ Ht) as (diag & outcome & -> & Hdiag).
  simpl. rewrite !elem_of_app. intros [Hin | [Hin | Hin]]; [done| |].
  - destruct Hcalls as [-> | (q & ps & _ & [-> | ->])];
      repeat (apply elem_of_cons in Hin as [Hin | Hin]; [done|]);
      by apply elem_of_nil in Hin.
  - destruct Hdiag as [-> | (e & -> & _)];
      repeat (apply elem_of_cons in Hin as [Hin | Hin]; [done|]);
      by apply elem_of_nil in Hin.
Qed.

End EmitFacts.

Section EmitClaims.

Import DatabaseHandler.



(** C3 at a cursor of DB API 2.0, which has no [commit]: the statement
    is executed, the look-up of [commit] on the cursor raises, the
    traceback goes to [sys.stderr], and no commit is performed, neither
    on the cursor nor on the connection. *)
Theorem emit_commits_on_the_cursor :
  emit (Sample.host Sample.traceback_text)
       (Sample.handler Sample.dbapi_cursor Sample.two_columns)
       (Sample.record VNone) [] =
    ([Called OnCursor
        (m_execute "INSERT INTO T (date, level) VALUES (?, ?);"
           [VDatetime (Datetime 1970 1 1 0 0 42 0); VInt 20]);
      StderrTraceback (AttributeError "sqlite3.Cursor" "commit")],
     ok tt).
Proof. by vm_compute. Qed.

(** With a cursor that does have [commit], a successful [emit] is one
    [execute] followed by one [commit], both received by the cursor. *)
Lemma emit_success (host : Host) (self : t) (record r' : LogRecord)
  (tr : list event) q ps :
  format_record host record = ok r' -> query self = ok q ->
  params host r' (values (mapping self)) = ok ps ->
  cur_execute (cursor self) q ps = None ->
  cur_commit (cursor self) = Some None ->
  emit host self record tr =
    (tr ++ [Called OnCursor (m_execute q ps); Called OnCursor m_commit], ok tt).
Proof.
  intros Hf Hq Hp Hx Hc. apply emit_returns.
  by rewrite (emit_try_execute _ _ _ _ _ _ _ Hf Hq Hp), Hx, Hc.
Qed.


End EmitClaims.

(* ================================================================== *)
(** * The translation of one attribute *)
(* ================================================================== *)

Section Translation.

Import DatabaseHandler.

(** C5 (as the code has it).  For the exception columns ([exc_info] and
    [exc_text]) of a record whose [exc_info] is a tuple with a true
    element, the parameter is the traceback text split into lines and
    rejoined with [|]; this is the text with its line feeds replaced by
    [|] when the line feed is its only line boundary and it does not end
    in one.  When [exc_info] is [None] or a tuple of false elements the
    parameter is [None]. *)
Theorem exc_param_joins_lines (host : Host) (record : LogRecord)
  (attr : string) (exc_info : value) :
  attr = "exc_info" \/ attr = "exc_text" ->
  is_Some (record !! attr) ->
  record !! "exc_info" = Some exc_info ->
  (forall items text,
     exc_info = VTuple items -> existsb truthy items = true ->
     formatException host exc_info = ok text ->
     param host record attr =
       ok (VStr (PyStr.join "|" (PyStr.splitlines text)))
     /\ (PyStr.only_LF text = true -> PyStr.endswith PyStr.LF text = false ->
         param host record attr =
           ok (VStr (PyStr.replace_char PyStr.LF "|" text))))
  /\
  (exc_info = VNone
   \/ (exists items, exc_info = VTuple items /\ existsb truthy items = false) ->
   param host record attr = ok VNone).
Proof.
  intros Hattr [v Hv] Hei.
  assert (Hparam : param host record attr =
    let* cond := (if truthy exc_info then any_ exc_info else ok false) in
    if cond then
      let* text := formatException host exc_info in
      ok (VStr (PyStr.join "|" (PyStr.splitlines text)))
    else ok VNone).
  { unfold param, getattr. rewrite Hv. cbn.
    destruct Hattr as [-> | ->]; cbn; by rewrite Hei. }
  split.
  - intros items text -> Hany Htext.
    assert (param host record attr =
            ok (VStr (PyStr.join "|" (PyStr.splitlines text)))) as Hp.
    { rewrite Hparam. destruct items as [|i items]; [done|].
      cbn [truthy any_]. unfold ok at 1. cbn [res_bind].
      rewrite Hany, Htext. done. }
    split; [exact Hp|].
    intros Hlf Hend. by rewrite Hp, join_splitlines.
  - intros [-> | (items & -> & Hany)]; rewrite Hparam; [done|].
    destruct items as [|i items]; [done|].
    cbn [truthy any_]. unfold ok at 1. cbn [res_bind]. by rewrite Hany.
Qed.

Lemma exc_param_joins_lines_witness :
  param (Sample.host Sample.traceback_text)
        (Sample.record Sample.exc_triple) "exc_info" =
    ok (VStr (PyStr.join "|" (PyStr.splitlines Sample.traceback_text)))
  /\ param (Sample.host Sample.traceback_text)
           (Sample.record Sample.exc_triple) "exc_info" =
       ok (VStr (PyStr.replace_char PyStr.LF "|" Sample.traceback_text))
  /\ param (Sample.host Sample.traceback_text)
           (Sample.record (VTuple [VNone; VNone; VNone])) "exc_text" = ok VNone.
Proof.
  destruct (proj1 (exc_param_joins_lines (Sample.host Sample.traceback_text)
                     (Sample.record Sample.exc_triple) "exc_info"
                     Sample.exc_triple (or_introl eq_refl)
                     (ex_intro _ Sample.exc_triple eq_refl) eq_refl)
              [VObject "type" 1; VObject "ValueError" 2; VObject "traceback" 3]
              Sample.traceback_text eq_refl eq_refl eq_refl) as [Hjoin Hrepl].
  split; [exact Hjoin|]. split; [apply Hrepl; reflexivity|].
  apply (proj2 (exc_param_joins_lines (Sample.host Sample.traceback_text)
                  (Sample.record (VTuple [VNone; VNone; VNone])) "exc_text"
                  (VTuple [VNone; VNone; VNone]) (or_intror eq_refl)
                  (ex_intro _ VNone eq_refl) eq_refl)).
  right. exists [VNone; VNone; VNone]. split; reflexivity.
Defined.

(** C5 fails as stated: the traceback text of [ValueError("boom\n")]
    ends with a line feed; the parameter has no [|] for it. *)
Lemma exc_param_trailing_newline :
  param (Sample.host Sample.traceback_text_nl)
        (Sample.record Sample.exc_triple) "exc_info" =
    ok (VStr "Traceback (most recent call last):|ValueError: boom")
  /\ PyStr.replace_char PyStr.LF "|" Sample.traceback_text_nl =
       "Traceback (most recent call last):|ValueError: boom|"
  /\ param (Sample.host Sample.traceback_text_nl)
           (Sample.record Sample.exc_triple) "exc_info" <>
       ok (VStr (PyStr.replace_char PyStr.LF "|" Sample.traceback_text_nl)).
Proof. split; [by vm_compute|]. split; [by vm_compute|]. by vm_compute. Qed.

End Translation.

Section Columns.

Import DatabaseHandler.

(** C9.  For an attribute other than [created], [exc_info] and
    [exc_text] whose value is a string: the parameter is [None] when the
    string is empty or made of whitespace only, and the string itself,
    unchanged, when it has a character that is not whitespace. *)
Theorem blank_string_param (host : Host) (record : LogRecord)
  (attr s : string) :
  attr <> "created" -> attr <> "exc_info" -> attr <> "exc_text" ->
  record !! attr = Some (VStr s) ->
  (PyStr.forallb_str PyStr.isspace s = true ->
   param host record attr = ok VNone)
  /\
  (PyStr.forallb_str PyStr.isspace s = false ->
   param host record attr = ok (VStr s)).
Proof.
  intros Hc He Ht Hv.
  apply String.eqb_neq in Hc, He, Ht.
  unfold param, getattr. rewrite Hv. cbn [res_bind ok].
  rewrite Hc, He, Ht. cbn [orb]. rewrite strip_empty.
  split; intros ->; done.
Qed.

Lemma blank_string_param_witness :
  param (Sample.host Sample.traceback_text)
        (Sample.record VNone) "funcName" = ok VNone
  /\ param (Sample.host Sample.traceback_text)
           (Sample.record VNone) "module" = ok VNone
  /\ param (Sample.host Sample.traceback_text)
           (Sample.record VNone) "msg" = ok (VStr "  ok  ").
Proof.
  split; [|split].
  - apply (proj1 (blank_string_param (Sample.host Sample.traceback_text)
                    (Sample.record VNone) "funcName" ""
                    ltac:(discriminate) ltac:(discriminate)
                    ltac:(discriminate) eq_refl)).
    reflexivity.
  - apply (proj1 (blank_string_param (Sample.host Sample.traceback_text)
                    (Sample.record VNone) "module" "   "
                    ltac:(discriminate) ltac:(discriminate)
                    ltac:(discriminate) eq_refl)).
    reflexivity.
  - apply (proj2 (blank_string_param (Sample.host Sample.traceback_text)
                    (Sample.record VNone) "msg" "  ok  "
                    ltac:(discriminate) ltac:(discriminate)
                    ltac:(discriminate) eq_refl)).
    reflexivity.
Defined.

(** C6.  The statement handed to [execute] is
    [INSERT INTO table (columns) VALUES (placeholders);] with the column
    names of the mapping in its order, separated by a comma and a space,
    and as many [?], separated likewise; the parameters handed over with
    it are the translations of the mapping values, position by
    position.  For the mapping [date: created, level: levelno] on table
    [T] the text is [INSERT INTO T (date, level) VALUES (?, ?);]. *)
Theorem insert_statement_shape (host : Host) (self : t)
  (record r' : LogRecord) (ps : list value) (tr : list event) :
  format_record host record = ok r' ->
  params host r' (values (mapping self)) = ok ps ->
  let q := "INSERT INTO " +:+ table self +:+ " ("
           +:+ PyStr.join ", " (keys (mapping self))
           +:+ ") VALUES ("
           +:+ PyStr.join ", " (repeat "?" (length (keys (mapping self))))
           +:+ ");" in
  query self = ok q
  /\ Forall2 (fun attr p => param host r' attr = ok p)
       (values (mapping self)) ps
  /\ (exists rest outcome,
        emit host self record tr =
          (tr ++ Called OnCursor (m_execute q ps) :: rest, outcome))
  /\ (mapping self = [("date", "created"); ("level", "levelno")] ->
      table self = "T" ->
      q = "INSERT INTO T (date, level) VALUES (?, ?);"
      /\ exists p_date p_level,
           ps = [p_date; p_level]
           /\ param host r' "created" = ok p_date
           /\ param host r' "levelno" = ok p_level).
Proof.
  intros Hf Hp q.
  assert (Hq : query self = ok q) by apply query_text.
  assert (Hall : Forall2 (fun attr p => param host r' attr = ok p)
                   (values (mapping self)) ps) by (by apply params_Forall2).
  split; [exact Hq|]. split; [exact Hall|]. split.
  - pose proof (emit_try_execute host self _ _ tr _ _ Hf Hq Hp) as Ht.
    assert (exists calls r,
              emit_try host self record tr =
                (tr ++ Called OnCursor (m_execute q ps) :: calls, r))
      as (calls & r & Hcalls).
    { rewrite Ht. destruct (cur_execute (cursor self) q ps) as [e|];
        [|destruct (cur_commit (cursor self)) as [[e|]|]]; by eexists _, _. }
    destruct (emit_after_try _ _ _ _ _ _ Hcalls) as (diag & outcome & He & _).
    exists (calls ++ diag), outcome. by rewrite He.
  - intros Hm Ht. subst q. rewrite Hm, Ht in *. split; [reflexivity|].
    cbn in Hall.
    apply Forall2_cons_inv_l in Hall as (p1 & ps1 & H1 & Hall & ->).
    apply Forall2_cons_inv_l in Hall as (p2 & ps2 & H2 & Hall & ->).
    apply Forall2_nil_inv_l in Hall as ->.
    by exists p1, p2.
Qed.

Lemma insert_statement_shape_witness :
  query (Sample.handler Sample.committing_cursor Sample.two_columns) =
    ok "INSERT INTO T (date, level) VALUES (?, ?);"
  /\ emit (Sample.host Sample.traceback_text)
          (Sample.handler Sample.committing_cursor Sample.two_columns)
          (Sample.record VNone) [] =
       ([Called OnCursor
           (m_execute "INSERT INTO T (date, level) VALUES (?, ?);"
              [VDatetime (Datetime 1970 1 1 0 0 42 0); VInt 20]);
         Called OnCursor m_commit], ok tt).
Proof.
  pose proof (insert_statement_shape (Sample.host Sample.traceback_text)
                (Sample.handler Sample.committing_cursor Sample.two_columns)
                (Sample.record VNone)
                (<["message" := VStr "  ok  "]> (Sample.record VNone))
                [VDatetime (Datetime 1970 1 1 0 0 42 0); VInt 20] []
                eq_refl eq_refl) as (Hq & _ & _ & _).
  split; [exact Hq|]. by vm_compute.
Defined.

End Columns.

(* ================================================================== *)
(** * The set-up helpers *)
(* ================================================================== *)

Section SetupFacts.

Lemma get_put (key : option string) (lg : Logger) (p : Process) :
  get key (put key lg p) = lg.
Proof.
  destruct key as [n|]; simpl; [|done]. by rewrite lookup_insert_eq.
Qed.

Lemma get_put_ne (k key : option string) (lg : Logger) (p : Process) :
  k <> key -> get k (put key lg p) = get k p.
Proof.
  intros Hne. destruct key as [n|], k as [n'|]; simpl; try done.
  rewrite lookup_insert_ne; [done | congruence].
Qed.

Lemma objects_put key lg p : objects (put key lg p) = objects p.
Proof. by destruct key. Qed.

Lemma cwd_put key lg p : cwd (put key lg p) = cwd p.
Proof. by destruct key. Qed.

Lemma get_getLogger (name : option string) (p : Process) :
  get (logger_key name) (getLogger name p) = get (logger_key name) p.
Proof. unfold getLogger. apply get_put. Qed.

Lemma handlers_setLevel key lvl p :
  lg_handlers (get key (setLevel key lvl p)) = lg_handlers (get key p).
Proof. unfold setLevel. by rewrite get_put. Qed.

Lemma handlers_resolve name ll p :
  lg_handlers (get (logger_key name) (resolve name ll p)) = handlers_of name p.
Proof.
  unfold resolve, handlers_of.
  destruct ll; by rewrite ?handlers_setLevel, get_getLogger.
Qed.

Lemma objects_resolve name ll p : objects (resolve name ll p) = objects p.
Proof.
  unfold resolve, setLevel, getLogger. destruct ll; by rewrite ?objects_put.
Qed.

Lemma cwd_resolve name ll p : cwd (resolve name ll p) = cwd p.
Proof.
  unfold resolve, setLevel, getLogger. destruct ll; by rewrite ?cwd_put.
Qed.

Lemma level_resolve name ll p :
  lg_level (get (logger_key name) (resolve name ll p)) =
    default (lg_level (get (logger_key name) p)) ll.
Proof.
  unfold resolve, setLevel. destruct ll; simpl; by rewrite ?get_put, ?get_getLogger.
Qed.

Lemma get_resolve_ne key name ll p :
  key <> logger_key name -> get key (resolve name ll p) = get key p.
Proof.
  intros Hne. unfold resolve, setLevel, getLogger.
  destruct ll; by rewrite !get_put_ne.
Qed.

Lemma get_created key p : get key (created p) = get key p.
Proof. by destruct key. Qed.

(** A handler object created now is not attached anywhere yet. *)
Lemma fresh_ident (hs : list Handler) (n : nat) :
  bounded n hs ->
  existsb (fun h' => Nat.eqb (h_ident h') n) hs = false.
Proof.
  induction 1 as [|h hs Hh _ IH]; simpl; [done|].
  rewrite IH, orb_false_r. apply Nat.eqb_neq. lia.
Qed.

Lemma handlers_addHandler key h p :
  existsb (fun h' => Nat.eqb (h_ident h') (h_ident h)) (lg_handlers (get key p))
    = false ->
  lg_handlers (get key (addHandler key h p)) = lg_handlers (get key p) ++ [h].
Proof. intros H. unfold addHandler. by rewrite H, get_put. Qed.

Lemma handlers_addHandler_grow key h p :
  exists added,
    lg_handlers (get key (addHandler key h p)) = lg_handlers (get key p) ++ added
    /\ (added = [] \/ added = [h]).
Proof.
  unfold addHandler. destruct (existsb _ _).
  - exists []. by rewrite app_nil_r; eauto.
  - exists [h]. rewrite get_put. eauto.
Qed.

Lemma level_addHandler key h p :
  lg_level (get key (addHandler key h p)) = lg_level (get key p).
Proof.
  unfold addHandler. destruct (existsb _ _); [done|]. by rewrite get_put.
Qed.

Lemma get_addHandler_ne k key h p :
  k <> key -> get k (addHandler key h p) = get k p.
Proof.
  intros Hne. unfold addHandler. destruct (existsb _ _); [done|].
  by rewrite get_put_ne.
Qed.

Lemma objects_addHandler key h p : objects (addHandler key h p) = objects p.
Proof.
  unfold addHandler. destruct (existsb _ _); [done|]. apply objects_put.
Qed.

Lemma cwd_addHandler key h p : cwd (addHandler key h p) = cwd p.
Proof.
  unfold addHandler. destruct (existsb _ _); [done|]. apply cwd_put.
Qed.

(** ** The two helpers, path by path *)

Lemma setup_stream_logger_eq name stream ll lh fmt p :
  setup_stream_logger name stream ll lh fmt p =
    let r := resolve name ll p in
    if existsb isinstance_StreamHandler (handlers_of name p)
    then (r, ok tt)
    else match Formatter.new fmt with
         | inr e => (created r, raise e)
         | inl format =>
             (addHandler (logger_key name)
                {| h_ident := objects p;
                   h_kind := StreamHandler (default sys_stderr stream);
                   h_level := lh; h_formatter := Some format |} (created r),
              ok tt)
         end.
Proof.
  rewrite <- (handlers_resolve name ll p), <- (objects_resolve name ll p).
  reflexivity.
Qed.

Lemma setup_file_logger_eq fs filename name mode enc ll lh fmt p :
  setup_file_logger fs filename name mode enc ll lh fmt p =
    let r := resolve name ll p in
    if existsb (fun h => isinstance_FileHandler h
                         && str_eq_arg (baseFilename_of h) filename)
         (handlers_of name p)
    then (r, ok tt)
    else match fs (abspath (cwd p) (fspath filename)) mode enc with
         | Some e => (created r, raise e)
         | None =>
             match Formatter.new fmt with
             | inr e => (created r, raise e)
             | inl format =>
                 (addHandler (logger_key name)
                    {| h_ident := objects p;
                       h_kind := FileHandler (abspath (cwd p) (fspath filename))
                                   mode enc;
                       h_level := lh; h_formatter := Some format |}
                    (created r),
                  ok tt)
             end
         end.
Proof.
  rewrite <- (handlers_resolve name ll p), <- (objects_resolve name ll p),
    <- (cwd_resolve name ll p).
  reflexivity.
Qed.

Lemma handlers_of_resolve name ll p :
  handlers_of name (resolve name ll p) = handlers_of name p.
Proof. apply handlers_resolve. Qed.

Lemma handlers_of_created name ll p :
  handlers_of name (created (resolve name ll p)) = handlers_of name p.
Proof. unfold handlers_of. rewrite get_created. apply handlers_resolve. Qed.

Lemma handlers_of_attached name ll h p :
  bounded (objects p) (handlers_of name p) ->
  h_ident h = objects p ->
  handlers_of name (addHandler (logger_key name) h (created (resolve name ll p)))
    = handlers_of name p ++ [h].
Proof.
  intros Hb Hh. unfold handlers_of at 1.
  rewrite handlers_addHandler; rewrite get_created, handlers_resolve;
    [done|].
  rewrite Hh. by apply fresh_ident.
Qed.

Lemma existsb_app_r {A} (f : A -> bool) (l : list A) (x : A) :
  f x = true -> existsb f (l ++ [x]) = true.
Proof.
  intros Hx. rewrite existsb_app. simpl. rewrite Hx. by rewrite orb_true_r.
Qed.

Lemma filter_none {A} (f : A -> bool) (l : list A) :
  existsb f l = false -> List.filter f l = [].
Proof.
  induction l as [|a l IH]; simpl; [done|].
  intros H. apply orb_false_elim in H as [Ha Hl]. rewrite Ha. by apply IH.
Qed.

Lemma file_is_stream (hs : list Handler) :
  existsb isinstance_FileHandler hs = true ->
  existsb isinstance_StreamHandler hs = true.
Proof.
  induction hs as [|h hs IH]; simpl; [done|].
  intros H. apply orb_true_iff in H as [Hh | Hhs].
  - unfold isinstance_StreamHandler, isinstance_FileHandler in *.
    by destruct (h_kind h).
  - rewrite (IH Hhs). apply orb_true_r.
Qed.

(** ** Well-formed processes *)

Lemma bounded_mono (n n' : nat) (hs : list Handler) :
  n <= n' -> bounded n hs -> bounded n' hs.
Proof.
  intros Hle Hb. eapply Forall_impl; [exact Hb|].
  intros h Hh. simpl in *. lia.
Qed.

Lemma wf_put key lg p :
  wf p -> bounded (objects p) (lg_handlers lg) -> wf (put key lg p).
Proof.
  intros Hwf Hlg k. rewrite objects_put.
  destruct (decide (k = key)) as [-> | Hne].
  - by rewrite get_put.
  - rewrite get_put_ne by done. apply Hwf.
Qed.

Lemma wf_resolve name ll p : wf p -> wf (resolve name ll p).
Proof.
  intros Hwf. assert (wf (getLogger name p)) as Hg.
  { apply wf_put; [done | apply Hwf]. }
  destruct ll as [lvl|]; [|done].
  apply wf_put; [done | apply Hg].
Qed.

Lemma wf_created p : wf p -> wf (created p).
Proof.
  intros Hwf k. rewrite get_created.
  apply bounded_mono with (objects p); [simpl; lia | apply Hwf].
Qed.

Lemma wf_addHandler key h p :
  wf p -> h_ident h < objects p -> wf (addHandler key h p).
Proof.
  intros Hwf Hh. unfold addHandler. destruct (existsb _ _); [done|].
  apply wf_put; [done|]. apply Forall_app. split; [apply Hwf|].
  by repeat constructor.
Qed.

Lemma wf_fresh_process (dir : string) : wf (fresh_process dir).
Proof. intros [n|]; simpl; [rewrite lookup_empty|]; constructor. Qed.

(** Both helpers keep the process well-formed, also when they raise. *)
Lemma wf_setup_stream name stream ll lh fmt p :
  wf p -> wf (setup_stream_logger name stream ll lh fmt p).1.
Proof.
  intros Hwf. rewrite setup_stream_logger_eq. cbn zeta.
  pose proof (wf_resolve name ll p Hwf) as Hr.
  pose proof (wf_created _ Hr) as Hc.
  destruct (existsb _ _); [done|].
  destruct (Formatter.new fmt); [|done].
  apply wf_addHandler; [done|]. simpl. rewrite objects_resolve. lia.
Qed.

Lemma wf_setup_file fs filename name mode enc ll lh fmt p :
  wf p -> wf (setup_file_logger fs filename name mode enc ll lh fmt p).1.
Proof.
  intros Hwf. rewrite setup_file_logger_eq. cbn zeta.
  pose proof (wf_resolve name ll p Hwf) as Hr.
  pose proof (wf_created _ Hr) as Hc.
  destruct (existsb _ _); [done|].
  destruct (fs _ mode enc); [done|].
  destruct (Formatter.new fmt); [|done].
  apply wf_addHandler; [done|]. simpl. rewrite objects_resolve. lia.
Qed.

(** A call of [setup_file_logger] with a file name that is a string and
    its own absolute path: when it returns normally, a second call
    finds the handler and returns at once. *)
Lemma file_attach_once_absolute (fs : FileSystem) (p : Process)
  (name : option string) (path : string) (mode1 mode2 : string)
  (enc1 enc2 : option string) (ll1 ll2 : option Z) (lh1 lh2 : Z)
  (fmt1 fmt2 : string) :
  wf p ->
  abspath (cwd p) path = path ->
  let first := setup_file_logger fs (PathStr path) name mode1 enc1 ll1 lh1
                 fmt1 p in
  let second := setup_file_logger fs (PathStr path) name mode2 enc2 ll2 lh2
                  fmt2 first.1 in
  first.2 = ok tt ->
  second.2 = ok tt /\ handlers_of name second.1 = handlers_of name first.1.
Proof.
  intros Hwf Habs first second Hok.
  assert (existsb (fun h => isinstance_FileHandler h
                            && str_eq_arg (baseFilename_of h) (PathStr path))
            (handlers_of name first.1) = true) as Hex.
  { unfold first in *. rewrite setup_file_logger_eq in *. cbn zeta in *.
    destruct (existsb _ (handlers_of name p)) eqn:E.
    { simpl. by rewrite handlers_of_resolve. }
    destruct (fs _ mode1 enc1); [done|].
    destruct (Formatter.new fmt1); [|done]. simpl.
    rewrite handlers_of_attached; [|apply Hwf|done].
    apply existsb_app_r. simpl. rewrite Habs. by rewrite String.eqb_refl. }
  unfold second. rewrite setup_file_logger_eq. cbn zeta. rewrite Hex.
  split; [done | apply handlers_of_resolve].
Qed.

End SetupFacts.

Section SetupClaims.

(** C8.  After a call of [setup_stream_logger] that returns normally,
    a second call on the same logger returns normally and attaches
    nothing, whatever the stream, levels and format of the two calls.
    On a logger without any handler of stream type, the two calls leave
    exactly one such handler: the [StreamHandler] on the stream of the
    first call.  A first call that raises has been given an invalid
    format and has attached nothing. *)
Theorem stream_attach_once (p : Process) (name : option string)
  (stream1 stream2 : option stream) (ll1 ll2 : option Z) (lh1 lh2 : Z)
  (fmt1 fmt2 : string) :
  wf p ->
  let first := setup_stream_logger name stream1 ll1 lh1 fmt1 p in
  let second := setup_stream_logger name stream2 ll2 lh2 fmt2 first.1 in
  (first.2 = ok tt ->
   second.2 = ok tt /\ handlers_of name second.1 = handlers_of name first.1)
  /\
  (first.2 = ok tt ->
   existsb isinstance_StreamHandler (handlers_of name p) = false ->
   exists format,
     Formatter.new fmt1 = ok format
     /\ List.filter isinstance_StreamHandler (handlers_of name second.1) =
          [{| h_ident := objects p;
              h_kind := StreamHandler (default sys_stderr stream1);
              h_level := lh1; h_formatter := Some format |}])
  /\
  (forall e, first.2 = raise e ->
     Formatter.new fmt1 = raise e
     /\ handlers_of name first.1 = handlers_of name p).
Proof.
  intros Hwf first second.
  assert (Hfirst : first =
    let r := resolve name ll1 p in
    if existsb isinstance_StreamHandler (handlers_of name p)
    then (r, ok tt)
    else match Formatter.new fmt1 with
         | inr e => (created r, raise e)
         | inl format =>
             (addHandler (logger_key name)
                {| h_ident := objects p;
                   h_kind := StreamHandler (default sys_stderr stream1);
                   h_level := lh1; h_formatter := Some format |} (created r),
              ok tt)
         end) by apply setup_stream_logger_eq.
  cbn zeta in Hfirst.
  assert (Hsecond : existsb isinstance_StreamHandler
                      (handlers_of name first.1) = true ->
                    second.2 = ok tt
                    /\ handlers_of name second.1 = handlers_of name first.1).
  { intros Hex. unfold second. rewrite setup_stream_logger_eq. cbn zeta.
    rewrite Hex. split; [done | apply handlers_of_resolve]. }
  destruct (existsb isinstance_StreamHandler (handlers_of name p)) eqn:Hp.
  { assert (handlers_of name first.1 = handlers_of name p) as H1
      by (rewrite Hfirst; apply handlers_of_resolve).
    split; [|split].
    - intros _. apply Hsecond. by rewrite H1.
    - done.
    - intros e. by rewrite Hfirst. }
  destruct (Formatter.new fmt1) as [format|e1] eqn:Hfmt.
  - assert (handlers_of name first.1 =
              handlers_of name p ++
              [{| h_ident := objects p;
                  h_kind := StreamHandler (default sys_stderr stream1);
                  h_level := lh1; h_formatter := Some format |}]) as H1.
    { rewrite Hfirst. simpl. apply handlers_of_attached; [apply Hwf | done]. }
    assert (second.2 = ok tt
            /\ handlers_of name second.1 = handlers_of name first.1)
      as [Hok Hsame].
    { apply Hsecond. rewrite H1. by apply existsb_app_r. }
    split; [done|]. split.
    + intros _ _. exists format. split; [done|].
      rewrite Hsame, H1, List.filter_app. by rewrite filter_none.
    + intros e. by rewrite Hfirst.
  - split; [by rewrite Hfirst|]. split; [by rewrite Hfirst|].
    intros e. rewrite Hfirst. simpl. intros [= ->].
    split; [done | apply handlers_of_created].
Qed.

Lemma stream_attach_once_witness :
  let first := setup_stream_logger (Some "app") None (Some DEBUG) DEBUG
                 "%(message)s" (fresh_process "/tmp") in
  let second := setup_stream_logger (Some "app") (Some sys_stdout)
                  (Some WARNING) WARNING "no field" first.1 in
  (second.2 = ok tt
   /\ handlers_of (Some "app") second.1 = handlers_of (Some "app") first.1)
  /\ exists format,
       Formatter.new "%(message)s" = ok format
       /\ List.filter isinstance_StreamHandler
            (handlers_of (Some "app") second.1) =
            [{| h_ident := 0; h_kind := StreamHandler sys_stderr;
                h_level := DEBUG; h_formatter := Some format |}].
Proof.
  destruct (stream_attach_once (fresh_process "/tmp") (Some "app")
              None (Some sys_stdout) (Some DEBUG) (Some WARNING)
              DEBUG WARNING "%(message)s" "no field"
              (wf_fresh_process "/tmp")) as (Hsame & Hone & _).
  split; [apply Hsame; reflexivity | apply Hone; reflexivity].
Defined.

(** C10 (as the code has it).  A [FileHandler] is a [StreamHandler]: on
    a logger that has a file handler, [setup_stream_logger] returns
    normally and attaches nothing; it leaves the handlers of the logger
    and every other logger as they are, and sets the level of the
    logger when one is given.  After a call of [setup_file_logger] that
    returns normally on a logger without handlers, the call of
    [setup_stream_logger] leaves the file handler as the only
    handler. *)
Theorem stream_after_file (fs : FileSystem) (p : Process)
  (name : option string) (filename : path_arg) (mode : string)
  (enc : option string) (stream : option stream) (llf lls : option Z)
  (lhf lhs : Z) (fmtf fmts : string) :
  (existsb isinstance_FileHandler (handlers_of name p) = true ->
   let after := setup_stream_logger name stream lls lhs fmts p in
   after.2 = ok tt
   /\ handlers_of name after.1 = handlers_of name p
   /\ lg_level (get (logger_key name) after.1) =
        default (lg_level (get (logger_key name) p)) lls
   /\ (forall key, key <> logger_key name -> get key after.1 = get key p))
  /\
  (handlers_of name p = [] ->
   let first := setup_file_logger fs filename name mode enc llf lhf fmtf p in
   let second := setup_stream_logger name stream lls lhs fmts first.1 in
   first.2 = ok tt ->
   second.2 = ok tt
   /\ exists format,
        Formatter.new fmtf = ok format
        /\ handlers_of name second.1 =
             [{| h_ident := objects p;
                 h_kind := FileHandler (abspath (cwd p) (fspath filename))
                             mode enc;
                 h_level := lhf; h_formatter := Some format |}]).
Proof.
  assert (Hpresent : forall q : Process,
    existsb isinstance_FileHandler (handlers_of name q) = true ->
    setup_stream_logger name stream lls lhs fmts q = (resolve name lls q, ok tt)).
  { intros q Hq. rewrite setup_stream_logger_eq. cbn zeta.
    by rewrite (file_is_stream _ Hq). }
  split.
  - intros Hfile after. unfold after. rewrite (Hpresent p Hfile). simpl.
    split; [done|]. split; [apply handlers_of_resolve|].
    split; [apply level_resolve|].
    intros key Hne. by apply get_resolve_ne.
  - intros Hempty first second Hok.
    assert (exists format,
              Formatter.new fmtf = ok format
              /\ handlers_of name first.1 =
                   [{| h_ident := objects p;
                       h_kind := FileHandler (abspath (cwd p) (fspath filename))
                                   mode enc;
                       h_level := lhf; h_formatter := Some format |}])
      as (format & Hfmt & H1).
    { unfold first in *. rewrite setup_file_logger_eq in *. cbn zeta in *.
      rewrite Hempty in *. cbn [existsb] in *.
      destruct (fs _ mode enc); [done|].
      destruct (Formatter.new fmtf) as [format|]; [|done].
      exists format. split; [done|]. simpl.
      rewrite handlers_of_attached; [by rewrite Hempty | | done].
      rewrite Hempty. constructor. }
    unfold second. rewrite Hpresent by (by rewrite H1). simpl.
    split; [done|]. exists format. split; [done|].
    by rewrite handlers_of_resolve.
Qed.

Lemma stream_after_file_witness :
  (let after :=
     setup_stream_logger None (Some sys_stdout) (Some DEBUG) WARNING "no field"
       (setup_file_logger Sample.fs (PathStr "app.log") None "a" None
          (Some WARNING) DEBUG "%(message)s" (fresh_process "/tmp")).1 in
   after.2 = ok tt
   /\ handlers_of None after.1 =
        handlers_of None
          (setup_file_logger Sample.fs (PathStr "app.log") None "a" None
             (Some WARNING) DEBUG "%(message)s" (fresh_process "/tmp")).1
   /\ lg_level (get (logger_key None) after.1) =
        default (lg_level (get (logger_key None)
           (setup_file_logger Sample.fs (PathStr "app.log") None "a" None
              (Some WARNING) DEBUG "%(message)s" (fresh_process "/tmp")).1))
          (Some DEBUG)
   /\ (forall key, key <> logger_key None ->
         get key after.1 =
         get key
           (setup_file_logger Sample.fs (PathStr "app.log") None "a" None
              (Some WARNING) DEBUG "%(message)s" (fresh_process "/tmp")).1))
  /\
  (let first := setup_file_logger Sample.fs (PathStr "app.log") None "a" None
                  (Some DEBUG) DEBUG "%(message)s" (fresh_process "/tmp") in
   let second := setup_stream_logger None None (Some DEBUG) DEBUG
                   "%(message)s" first.1 in
   second.2 = ok tt
   /\ exists format,
        Formatter.new "%(message)s" = ok format
        /\ handlers_of None second.1 =
             [{| h_ident := 0; h_kind := FileHandler "/tmp/app.log" "a" None;
                 h_level := DEBUG; h_formatter := Some format |}]).
Proof.
  split.
  - apply (proj1 (stream_after_file Sample.fs
                    (setup_file_logger Sample.fs (PathStr "app.log") None "a"
                       None (Some WARNING) DEBUG "%(message)s"
                       (fresh_process "/tmp")).1
                    None (PathStr "app.log") "a" None (Some sys_stdout)
                    None (Some DEBUG) DEBUG WARNING "%(message)s" "no field")).
    reflexivity.
  - apply (proj2 (stream_after_file Sample.fs (fresh_process "/tmp") None
                    (PathStr "app.log") "a" None None (Some DEBUG) (Some DEBUG)
                    DEBUG DEBUG "%(message)s" "%(message)s")).
    + reflexivity.
    + reflexivity.
Defined.

(** C10 fails as stated.  The call of [setup_stream_logger] on a logger
    with a file handler is not a no-op: it sets the level of the
    logger.  And when [setup_file_logger] raises because the file
    cannot be opened, a caller that goes on to [setup_stream_logger]
    gets a stream handler attached, and no file handler. *)
Lemma stream_after_file_changes_the_logger :
  (let p1 := (setup_file_logger Sample.fs (PathStr "/var/log/app.log") None
                "a" None (Some WARNING) DEBUG "%(message)s"
                (fresh_process "/tmp")).1 in
   let p2 := (setup_stream_logger None None (Some DEBUG) DEBUG "%(message)s"
                p1).1 in
   existsb isinstance_FileHandler (handlers_of None p1) = true
   /\ lg_level (get None p1) = WARNING
   /\ lg_level (get None p2) = DEBUG
   /\ p2 <> p1)
  /\
  (let first := setup_file_logger Sample.fs (PathStr "/") None "a" None
                  (Some DEBUG) DEBUG "%(message)s" (fresh_process "/tmp") in
   let second := setup_stream_logger None None (Some DEBUG) DEBUG
                   "%(message)s" first.1 in
   first.2 = raise (Exn "IsADirectoryError" true
                      "[Errno 21] Is a directory: '/'")
   /\ second.2 = ok tt
   /\ handlers_of None second.1 =
        [{| h_ident := 1; h_kind := StreamHandler sys_stderr;
            h_level := DEBUG; h_formatter := Some "%(message)s" |}]).
Proof.
  split.
  - cbn zeta. split; [by vm_compute|]. split; [by vm_compute|].
    split; [by vm_compute|].
    intros Heq. apply (f_equal (fun q => lg_level (get None q))) in Heq.
    by vm_compute in Heq.
  - cbn zeta. split; [by vm_compute|]. split; by vm_compute.
Qed.

(** C7 at a relative file name.  Two calls with ["app.log"] in the
    working directory [/tmp], both returning normally, attach two file
    handlers on [/tmp/app.log]: the [baseFilename] of the first one is
    the absolute path, which the second call compares with the argument
    as given. *)
Theorem file_attach_relative_twice :
  let first :=
    setup_file_logger Sample.fs (PathStr "app.log") None "a" None (Some DEBUG)
      DEBUG "%(asctime)s %(levelname)-8s %(message)s" (fresh_process "/tmp") in
  let second :=
    setup_file_logger Sample.fs (PathStr "app.log") None "a" None (Some DEBUG)
      DEBUG "%(asctime)s %(levelname)-8s %(message)s" first.1 in
  first.2 = ok tt
  /\ second.2 = ok tt
  /\ handlers_of None second.1 =
       [{| h_ident := 0; h_kind := FileHandler "/tmp/app.log" "a" None;
           h_level := DEBUG;
           h_formatter := Some "%(asctime)s %(levelname)-8s %(message)s" |};
        {| h_ident := 1; h_kind := FileHandler "/tmp/app.log" "a" None;
           h_level := DEBUG;
           h_formatter := Some "%(asctime)s %(levelname)-8s %(message)s" |}].
Proof. cbn zeta. split; [by vm_compute|]. split; by vm_compute. Qed.

End SetupClaims.
(* ================================================================== *)
(** * Further properties: the table definition *)
(* ================================================================== *)

Section TableDefinition.

(** [make_log_table_definition] never raises: whatever the two names
    are (braces included), they are put as they are at the place of the
    table name and of the constraint name, and the rest of the text is
    fixed. *)
Lemma make_log_table_definition_text (table_name primary_key : string) :
  make_log_table_definition table_name primary_key =
    ok ("CREATE TABLE " +:+ table_name +:+ table_columns
        +:+ primary_key +:+ table_end).
Proof. reflexivity. Qed.

Lemma startswith_app (prefix s t : string) :
  startswith prefix s = true -> startswith prefix (s +:+ t) = true.
Proof.
  revert s. induction prefix as [|a prefix IH]; intros s H; [done|].
  destruct s as [|b s]; [done|].
  rewrite append_cons. cbn [startswith] in *.
  apply andb_prop in H as [Hab H]. rewrite Hab. by apply IH.
Qed.

Lemma contains_app_l (sub s t : string) :
  contains sub s = true -> contains sub (s +:+ t) = true.
Proof.
  induction s as [|c s IH].
  - simpl. rewrite orb_false_r. intros H. destruct sub; [|done].
    by destruct t.
  - intros H. simpl in H. apply orb_prop in H as [H | H].
    + rewrite append_cons. cbn [contains].
      rewrite <- append_cons, (startswith_app _ _ _ H). done.
    + rewrite append_cons. cbn [contains]. rewrite (IH H). apply orb_true_r.
Qed.

Lemma contains_app_r (sub s t : string) :
  contains sub t = true -> contains sub (s +:+ t) = true.
Proof.
  intros H. induction s as [|c s IH]; [done|].
  rewrite append_cons. cbn [contains]. rewrite IH. apply orb_true_r.
Qed.

(** X1.  Every column of the default mapping [LOG_TABLE_MAP] is a
    column of the table that [make_log_table_definition] defines,
    whatever the table and the constraint are called. *)
Theorem default_columns_in_table_definition
  (table_name primary_key col : string) :
  col ∈ keys LOG_TABLE_MAP ->
  exists text,
    make_log_table_definition table_name primary_key = ok text
    /\ contains (", " +:+ col +:+ " ") text = true.
Proof.
  intros Hcol. eexists. split; [apply make_log_table_definition_text|].
  apply contains_app_r, contains_app_r, contains_app_l.
  unfold keys in Hcol. cbn in Hcol.
  repeat (apply elem_of_cons in Hcol as [-> | Hcol]; [by vm_compute|]).
  by apply elem_of_nil in Hcol.
Qed.

Lemma default_columns_in_table_definition_witness :
  exists text,
    make_log_table_definition "events" "pk_events" = ok text
    /\ contains (", " +:+ "func_name" +:+ " ") text = true.
Proof.
  apply (default_columns_in_table_definition "events" "pk_events" "func_name").
  apply (bool_decide_unpack _). by vm_compute.
Defined.

End TableDefinition.

(* ================================================================== *)
(** * Further properties: the database handler *)
(* ================================================================== *)

Section HandlerProperties.

Import DatabaseHandler.

Lemma init_of_valid (conn : Connection) (tbl : string)
  (m : option (list (string * string))) (tr : list event) :
  diff (mapping_or m LOG_TABLE_MAP) = ∅ ->
  init conn tbl m tr =
    (tr ++ [Called OnConnection m_cursor],
     match conn_cursor conn with
     | inl cur =>
         ok {| connection := conn; table := tbl;
               mapping := mapping_or m LOG_TABLE_MAP;
               cursor := cur; level := NOTSET |}
     | inr e => raise e
     end).
Proof.
  intros Hd. unfold init. rewrite Hd, bool_decide_eq_true_2 by done.
  unfold DB.bind, connection_cursor, ret. by destruct (conn_cursor conn).
Qed.

Lemma init_of_invalid (conn : Connection) (tbl : string)
  (m : option (list (string * string))) (tr : list event) :
  diff (mapping_or m LOG_TABLE_MAP) <> ∅ ->
  init conn tbl m tr =
    (tr, raise (Exn "AttributeError" true
                  (invalid_mapping_text (diff (mapping_or m LOG_TABLE_MAP))))).
Proof.
  intros Hd. unfold init. by rewrite bool_decide_eq_false_2 by done.
Qed.

(** X2.  Without a mapping, and with an empty one, the handler is built
    on the nine columns of [LOG_TABLE_MAP]: both constructions pass
    validation and give the same result. *)
Theorem init_default_mapping (conn : Connection) (tbl : string)
  (tr : list event) :
  init conn tbl None tr = init conn tbl (Some []) tr
  /\ init conn tbl None tr =
       (tr ++ [Called OnConnection m_cursor],
        match conn_cursor conn with
        | inl cur =>
            ok {| connection := conn; table := tbl; mapping := LOG_TABLE_MAP;
                  cursor := cur; level := NOTSET |}
        | inr e => raise e
        end).
Proof.
  split; [reflexivity|].
  apply (init_of_valid conn tbl None tr), LOG_TABLE_MAP_valid.
Qed.

(** X3.  A handler that [__init__] has built has at least one column,
    and every attribute it will read is an attribute of the blank
    record: on a record that has those attributes, no [getattr] of
    [emit] can fail. *)
Theorem init_mapping_readable (conn : Connection) (tbl : string)
  (m : option (list (string * string))) (tr tr' : list event) (self : t)
  (record : LogRecord) :
  init conn tbl m tr = (tr', ok self) ->
  (forall k : string, k ∈ blank_record_keys -> is_Some (record !! k)) ->
  mapping self <> []
  /\ Forall (fun attr : string => exists v, getattr record attr = ok v)
       (values (mapping self)).
Proof.
  intros Hinit Hrec.
  destruct (decide (diff (mapping_or m LOG_TABLE_MAP) = ∅)) as [Hd | Hd].
  2:{ rewrite (init_of_invalid _ _ _ _ Hd) in Hinit. by inversion Hinit. }
  rewrite (init_of_valid _ _ _ _ Hd) in Hinit.
  destruct (conn_cursor conn) as [cur|e]; [|by inversion Hinit].
  injection Hinit as _ <-. simpl. split.
  - by destruct m as [[|]|].
  - apply diff_empty in Hd. eapply Forall_impl; [exact Hd|].
    intros attr Hattr. destruct (Hrec attr Hattr) as [v Hv].
    exists v. unfold getattr. by rewrite Hv.
Qed.

Lemma init_mapping_readable_witness :
  Sample.two_columns <> []
  /\ Forall (fun attr : string =>
               exists v, getattr (Sample.full_record VNone) attr = ok v)
       (values Sample.two_columns).
Proof.
  apply (init_mapping_readable
           (Sample.connection_of Sample.committing_cursor) "T"
           (Some Sample.two_columns) [] [Called OnConnection m_cursor]
           (Sample.handler Sample.committing_cursor Sample.two_columns)
           (Sample.full_record VNone) eq_refl).
  intros k Hk. unfold blank_record_keys in Hk.
  repeat (apply elem_of_cons in Hk as [-> | Hk]; [by vm_compute; eexists|]).
  by apply elem_of_nil in Hk.
Defined.

(** X4.  Whatever the attribute and its value, a parameter that the
    translation produces is [None], a [bool] or an [int], a [float], a
    [str] or a [datetime]; the parameter list has one entry for each
    attribute. *)
Theorem params_scalar (host : Host) (record : LogRecord)
  (attrs : list string) (ps : list value) :
  params host record attrs = ok ps ->
  length ps = length attrs
  /\ Forall (fun p => isinstance_scalar p = true) ps.
Proof.
  assert (Hone : forall attr p,
            param host record attr = ok p -> isinstance_scalar p = true).
  { intros attr p. unfold param.
    destruct (getattr record attr) as [v|e]; [|done]. cbn [res_bind].
    destruct (String.eqb attr "created").
    { destruct (fromtimestamp host v); [|done]. by intros [= <-]. }
    destruct (String.eqb attr "exc_info" || String.eqb attr "exc_text").
    { destruct (getattr record "exc_info") as [ei|e]; [|done]. cbn [res_bind].
      destruct (if truthy ei then any_ ei else ok false) as [[|]|e];
        [|by intros [= <-]|done].
      cbn [res_bind].
      destruct (formatException host ei); [|done]. by intros [= <-]. }
    destruct (match v with
              | VStr s => String.eqb (PyStr.strip s) ""
              | _ => false
              end); [by intros [= <-]|].
    destruct (isinstance_scalar v) eqn:Hv; [by intros [= <-]|].
    destruct (str_of host v); [|done]. by intros [= <-]. }
  intros Hps. apply params_Forall2 in Hps.
  split; [symmetry; by eapply Forall2_length|].
  induction Hps as [|attr p attrs ps Hp _ IH]; constructor; eauto.
Qed.

Lemma params_scalar_witness :
  length [VDatetime (Datetime 1970 1 1 0 0 42 0); VInt 20] =
    length (values Sample.two_columns)
  /\ Forall (fun p => isinstance_scalar p = true)
       [VDatetime (Datetime 1970 1 1 0 0 42 0); VInt 20].
Proof.
  apply (params_scalar (Sample.host Sample.traceback_text)
           (Sample.record VNone) (values Sample.two_columns)).
  reflexivity.
Defined.

(** One attribute that is not one of the three special ones and whose
    value is not a blank string. *)
Lemma param_plain (host : Host) (record : LogRecord) (attr : string)
  (v : value) :
  attr <> "created" -> attr <> "exc_info" -> attr <> "exc_text" ->
  record !! attr = Some v ->
  (forall s, v = VStr s -> PyStr.forallb_str PyStr.isspace s = false) ->
  param host record attr =
    if isinstance_scalar v then ok v
    else match str_of host v with
         | inl s => ok (VStr s)
         | inr e => raise e
         end.
Proof.
  intros Hc He Ht Hv Hstr.
  apply String.eqb_neq in Hc, He, Ht.
  unfold param, getattr. rewrite Hv. cbn [res_bind ok].
  rewrite Hc, He, Ht. cbn [orb].
  destruct v as [| | | |s| | |]; try done.
  by rewrite strip_empty, (Hstr s eq_refl).
Qed.

(** X5.  On attributes other than [created], [exc_info] and [exc_text]
    whose values are not blank strings, the translation loop is the
    identity on [None], numbers, strings and [datetime]s and [str()] on
    every other object, attribute by attribute and in the order of the
    mapping. *)
Theorem params_plain_values (host : Host) (record : LogRecord)
  (attrs : list string) (ps : list value) :
  Forall2 (fun (attr : string) (p : value) =>
     attr <> "created" /\ attr <> "exc_info" /\ attr <> "exc_text"
     /\ exists v,
          record !! attr = Some v
          /\ (forall s, v = VStr s ->
                PyStr.forallb_str PyStr.isspace s = false)
          /\ (if isinstance_scalar v then p = v
              else exists s, str_of host v = ok s /\ p = VStr s))
    attrs ps ->
  params host record attrs = ok ps.
Proof.
  intros Hall. apply params_Forall2.
  eapply Forall2_impl; [exact Hall|].
  intros attr p (Hc & He & Ht & v & Hv & Hblank & Hp). cbn beta.
  rewrite (param_plain host record attr v Hc He Ht Hv Hblank).
  destruct (isinstance_scalar v); [by rewrite Hp|].
  destruct Hp as (s & Hstr & ->). by rewrite Hstr.
Qed.

Lemma params_plain_values_witness :
  params (Sample.host Sample.traceback_text) (Sample.record VNone)
    ["levelno"; "args"; "msg"] = ok [VInt 20; VStr "<tuple>"; VStr "  ok  "].
Proof.
  apply (params_plain_values (Sample.host Sample.traceback_text)
           (Sample.record VNone) ["levelno"; "args"; "msg"]
           [VInt 20; VStr "<tuple>"; VStr "  ok  "]).
  repeat constructor; try discriminate.
  - exists (VInt 20). split; [reflexivity|]. split; [discriminate | reflexivity].
  - exists (VTuple []). split; [reflexivity|]. split; [discriminate|].
    by exists "<tuple>".
  - exists (VStr "  ok  "). split; [reflexivity|].
    split; [by intros s [= <-] | reflexivity].
Defined.



End HandlerProperties.

Section EmitProperties.

Import DatabaseHandler.


(** X8.  When formatting and translation succeed and the cursor
    executes and commits without raising, [emit] is exactly one
    [execute] with the statement and the parameters, then one [commit],
    and nothing is printed. *)
Theorem emit_executes_then_commits (host : Host) (self : t)
  (record r' : LogRecord) (tr : list event) (q : string) (ps : list value) :
  format_record host record = ok r' -> query self = ok q ->
  params host r' (values (mapping self)) = ok ps ->
  cur_execute (cursor self) q ps = None ->
  cur_commit (cursor self) = Some None ->
  emit host self record tr =
    (tr ++ [Called OnCursor (m_execute q ps); Called OnCursor m_commit], ok tt).
Proof.
  intros Hf Hq Hp Hx Hc. by apply emit_success with r'.
Qed.

Lemma emit_executes_then_commits_witness :
  emit (Sample.host Sample.traceback_text)
       (Sample.handler Sample.committing_cursor Sample.two_columns)
       (Sample.record VNone) [] =
    ([] ++ [Called OnCursor
              (m_execute "INSERT INTO T (date, level) VALUES (?, ?);"
                 [VDatetime (Datetime 1970 1 1 0 0 42 0); VInt 20]);
            Called OnCursor m_commit], ok tt).
Proof.
  apply (emit_executes_then_commits (Sample.host Sample.traceback_text)
           (Sample.handler Sample.committing_cursor Sample.two_columns)
           (Sample.record VNone)
           (<["message" := VStr "  ok  "]> (Sample.record VNone)) []
           "INSERT INTO T (date, level) VALUES (?, ?);"
           [VDatetime (Datetime 1970 1 1 0 0 42 0); VInt 20]
           eq_refl eq_refl eq_refl eq_refl eq_refl).
Defined.



(** [close], outcome by outcome. *)
Lemma close_outcomes (self : t) (tr : list event) :
  close self tr =
    match cur_close (cursor self) with
    | Some e => (tr ++ [Called OnCursor m_close], raise e)
    | None =>
        (tr ++ [Called OnCursor m_close; Called OnConnection m_close],
         match conn_close (connection self) with
         | Some e => raise e
         | None => ok tt
         end)
    end.
Proof.
  unfold close, DB.bind, cursor_close, connection_close, call.
  destruct (cur_close (cursor self)); [done|]. cbn.
  rewrite <- app_assoc. by destruct (conn_close (connection self)).
Qed.

(** X10.  A handler releases what its construction acquired: [close]
    closes the cursor that [__init__] obtained and then the connection
    it was given, and swallows nothing.  When closing the cursor raises,
    the exception reaches the caller and the connection stays open;
    when closing the connection raises, that exception reaches the
    caller. *)
Theorem construct_then_close (conn : Connection) (tbl : string)
  (m : option (list (string * string))) (tr : list event) (cur : Cursor) :
  diff (mapping_or m LOG_TABLE_MAP) = ∅ ->
  conn_cursor conn = ok cur ->
  exists self,
    init conn tbl m tr = (tr ++ [Called OnConnection m_cursor], ok self)
    /\ close self (tr ++ [Called OnConnection m_cursor]) =
         match cur_close cur with
         | Some e =>
             (tr ++ [Called OnConnection m_cursor; Called OnCursor m_close],
              raise e)
         | None =>
             (tr ++ [Called OnConnection m_cursor; Called OnCursor m_close;
                     Called OnConnection m_close],
              match conn_close conn with
              | Some e => raise e
              | None => ok tt
              end)
         end.
Proof.
  intros Hd Hcur. eexists. rewrite (init_of_valid _ _ _ _ Hd), Hcur.
  split; [reflexivity|]. rewrite close_outcomes. simpl.
  destruct (cur_close cur); by rewrite <- app_assoc.
Qed.

Lemma construct_then_close_witness :
  exists self,
    init (Sample.connection_of Sample.committing_cursor) "T"
         (Some Sample.two_columns) [] =
      ([] ++ [Called OnConnection m_cursor], ok self)
    /\ close self ([] ++ [Called OnConnection m_cursor]) =
         ([] ++ [Called OnConnection m_cursor; Called OnCursor m_close;
                 Called OnConnection m_close], ok tt).
Proof.
  apply (construct_then_close (Sample.connection_of Sample.committing_cursor)
           "T" (Some Sample.two_columns) [] Sample.committing_cursor).
  - apply (bool_decide_unpack _). by vm_compute.
  - reflexivity.
Defined.

End EmitProperties.

(* ================================================================== *)
(** * Further properties: the set-up helpers *)
(* ================================================================== *)

Section SetupProperties.

(** X11.  Both helpers set the level of the logger whenever a level is
    given, also when they find their handler attached already and add
    nothing and when they raise; and they leave every other logger as
    it is. *)
Theorem setup_sets_level_and_keeps_others (fs : FileSystem) (p : Process)
  (name : option string) (filename : path_arg) (mode : string)
  (enc : option string) (stream : option stream) (ll : option Z) (lh : Z)
  (fmt : string) :
  let pf := (setup_file_logger fs filename name mode enc ll lh fmt p).1 in
  let ps := (setup_stream_logger name stream ll lh fmt p).1 in
  lg_level (get (logger_key name) pf) =
    default (lg_level (get (logger_key name) p)) ll
  /\ lg_level (get (logger_key name) ps) =
       default (lg_level (get (logger_key name) p)) ll
  /\ (forall key, key <> logger_key name ->
        get key pf = get key p /\ get key ps = get key p).
Proof.
  intros pf ps. unfold pf, ps.
  rewrite setup_file_logger_eq, setup_stream_logger_eq. cbn zeta.
  split; [|split].
  - destruct (existsb _ _); [|destruct (fs _ mode enc);
      [|destruct (Formatter.new fmt)]]; simpl;
      by rewrite ?level_addHandler, ?get_created, level_resolve.
  - destruct (existsb _ _); [|destruct (Formatter.new fmt)]; simpl;
      by rewrite ?level_addHandler, ?get_created, level_resolve.
  - intros key Hne. split.
    + destruct (existsb _ _); [|destruct (fs _ mode enc);
        [|destruct (Formatter.new fmt)]]; simpl;
        by rewrite ?get_addHandler_ne, ?get_created, get_resolve_ne.
    + destruct (existsb _ _); [|destruct (Formatter.new fmt)]; simpl;
        by rewrite ?get_addHandler_ne, ?get_created, get_resolve_ne.
Qed.

(** X12.  Neither helper removes, replaces or reorders a handler: the
    handlers of the logger after a call are those before it, followed
    by at most one new handler, a [FileHandler] for the file helper and
    a [StreamHandler] for the stream helper; a call that raises adds
    none. *)
Theorem setup_only_appends (fs : FileSystem) (p : Process)
  (name : option string) (filename : path_arg) (mode : string)
  (enc : option string) (stream : option stream) (ll : option Z) (lh : Z)
  (fmt : string) :
  (exists added,
     handlers_of name
       (setup_file_logger fs filename name mode enc ll lh fmt p).1 =
       handlers_of name p ++ added
     /\ (added = []
         \/ (setup_file_logger fs filename name mode enc ll lh fmt p).2 = ok tt
            /\ exists h, added = [h]
                 /\ h_kind h = FileHandler (abspath (cwd p) (fspath filename))
                                 mode enc))
  /\
  (exists added,
     handlers_of name (setup_stream_logger name stream ll lh fmt p).1 =
       handlers_of name p ++ added
     /\ (added = []
         \/ (setup_stream_logger name stream ll lh fmt p).2 = ok tt
            /\ exists h, added = [h]
                 /\ h_kind h = StreamHandler (default sys_stderr stream))).
Proof.
  split.
  - rewrite setup_file_logger_eq. cbn zeta.
    destruct (existsb _ _);
      [|destruct (fs _ mode enc); [|destruct (Formatter.new fmt)]]; simpl;
      try (exists []; rewrite app_nil_r;
           split; [first [apply handlers_of_resolve | apply handlers_of_created]
                  | by left]).
    unfold handlers_of at 1.
    edestruct handlers_addHandler_grow as (added & -> & Hadded).
    rewrite get_created, handlers_resolve.
    exists added. split; [done|].
    destruct Hadded as [-> | ->]; [by left | right]. split; [done|]. eauto.
  - rewrite setup_stream_logger_eq. cbn zeta.
    destruct (existsb _ _); [|destruct (Formatter.new fmt)]; simpl;
      try (exists []; rewrite app_nil_r;
           split; [first [apply handlers_of_resolve | apply handlers_of_created]
                  | by left]).
    unfold handlers_of at 1.
    edestruct handlers_addHandler_grow as (added & -> & Hadded).
    rewrite get_created, handlers_resolve.
    exists added. split; [done|].
    destruct Hadded as [-> | ->]; [by left | right]. split; [done|]. eauto.
Qed.

(** X13.  With a file name given as a string that is its own absolute
    path, on a logger without a file handler on that path: a call that
    returns normally has opened the file and attached one [FileHandler]
    on the path, and a second call with that path returns normally and
    attaches nothing, whatever mode, encoding, levels and format it is
    given. *)
Theorem file_attach_absolute_once (fs : FileSystem) (p : Process)
  (name : option string) (path mode1 mode2 : string)
  (enc1 enc2 : option string) (ll1 ll2 : option Z) (lh1 lh2 : Z)
  (fmt1 fmt2 : string) :
  wf p ->
  abspath (cwd p) path = path ->
  existsb (fun h => isinstance_FileHandler h
                    && String.eqb (baseFilename_of h) path)
    (handlers_of name p) = false ->
  let first := setup_file_logger fs (PathStr path) name mode1 enc1 ll1 lh1
                 fmt1 p in
  let second := setup_file_logger fs (PathStr path) name mode2 enc2 ll2 lh2
                  fmt2 first.1 in
  first.2 = ok tt ->
  second.2 = ok tt
  /\ handlers_of name second.1 = handlers_of name first.1
  /\ fs path mode1 enc1 = None
  /\ exists format,
       Formatter.new fmt1 = ok format
       /\ handlers_of name first.1 =
            handlers_of name p ++
            [{| h_ident := objects p; h_kind := FileHandler path mode1 enc1;
                h_level := lh1; h_formatter := Some format |}].
Proof.
  intros Hwf Habs Hnone first second Hok.
  destruct (file_attach_once_absolute fs p name path mode1 mode2 enc1 enc2
              ll1 ll2 lh1 lh2 fmt1 fmt2 Hwf Habs Hok) as [Hok2 Hsame].
  split; [exact Hok2|]. split; [exact Hsame|].
  unfold first in *. rewrite setup_file_logger_eq in *. cbn zeta in *.
  simpl in Hok |- *. rewrite Hnone, Habs in *.
  destruct (fs path mode1 enc1); [done|]. split; [done|].
  destruct (Formatter.new fmt1) as [format|]; [|done].
  exists format. split; [done|]. simpl.
  apply handlers_of_attached; [apply Hwf | done].
Qed.

Lemma file_attach_absolute_once_witness :
  let first := setup_file_logger Sample.fs (PathStr "/var/log/app.log") None
                 "a" None (Some DEBUG) DEBUG "%(message)s"
                 (fresh_process "/tmp") in
  let second := setup_file_logger Sample.fs (PathStr "/var/log/app.log") None
                  "no mode" (Some "no codec") None WARNING "no field"
                  first.1 in
  second.2 = ok tt
  /\ handlers_of None second.1 = handlers_of None first.1
  /\ Sample.fs "/var/log/app.log" "a" None = None
  /\ exists format,
       Formatter.new "%(message)s" = ok format
       /\ handlers_of None first.1 =
            handlers_of None (fresh_process "/tmp") ++
            [{| h_ident := 0; h_kind := FileHandler "/var/log/app.log" "a" None;
                h_level := DEBUG; h_formatter := Some format |}].
Proof.
  apply (file_attach_absolute_once Sample.fs (fresh_process "/tmp") None
           "/var/log/app.log" "a" "no mode" None (Some "no codec")
           (Some DEBUG) None DEBUG WARNING "%(message)s" "no field"
           (wf_fresh_process "/tmp")).
  - by vm_compute.
  - reflexivity.
  - reflexivity.
Defined.

(** X14.  With a file name given as a [pathlib.Path] the scan for an
    attached file handler never finds one: every call tries to open the
    file and to create the formatter again, attaches a new
    [FileHandler] when both succeed, and raises what they raise
    otherwise, attaching nothing. *)
Theorem file_attach_path_object (fs : FileSystem) (p : Process)
  (name : option string) (path mode : string) (enc : option string)
  (ll : option Z) (lh : Z) (fmt : string) :
  wf p ->
  let call := setup_file_logger fs (PathObj path) name mode enc ll lh fmt p in
  match fs (abspath (cwd p) path) mode enc, Formatter.new fmt with
  | None, inl format =>
      call.2 = ok tt
      /\ handlers_of name call.1 =
           handlers_of name p ++
           [{| h_ident := objects p;
               h_kind := FileHandler (abspath (cwd p) path) mode enc;
               h_level := lh; h_formatter := Some format |}]
  | Some e, _ | None, inr e =>
      call.2 = raise e /\ handlers_of name call.1 = handlers_of name p
  end.
Proof.
  intros Hwf call. unfold call. rewrite setup_file_logger_eq. cbn zeta.
  assert (existsb (fun h => isinstance_FileHandler h
                            && str_eq_arg (baseFilename_of h) (PathObj path))
            (handlers_of name p) = false) as ->.
  { induction (handlers_of name p) as [|h hs IH]; [done|].
    cbn [existsb]. rewrite IH. simpl. by rewrite andb_false_r. }
  simpl. destruct (fs _ mode enc);
    [|destruct (Formatter.new fmt)]; simpl;
    (split; [done|]); try apply handlers_of_created.
  apply handlers_of_attached; [apply Hwf | done].
Qed.

Lemma file_attach_path_object_witness :
  let p1 := (setup_file_logger Sample.fs (PathObj "/var/log/app.log") None "a"
               None None DEBUG "%(message)s" (fresh_process "/tmp")).1 in
  let call := setup_file_logger Sample.fs (PathObj "/var/log/app.log") None
                "a" None None DEBUG "%(message)s" p1 in
  call.2 = ok tt
  /\ handlers_of None call.1 =
       handlers_of None p1 ++
       [{| h_ident := 1; h_kind := FileHandler "/var/log/app.log" "a" None;
           h_level := DEBUG; h_formatter := Some "%(message)s" |}].
Proof.
  apply (file_attach_path_object Sample.fs
           (setup_file_logger Sample.fs (PathObj "/var/log/app.log") None "a"
              None None DEBUG "%(message)s" (fresh_process "/tmp")).1
           None "/var/log/app.log" "a" None None DEBUG "%(message)s").
  apply wf_setup_file, wf_fresh_process.
Defined.

End SetupProperties.

Section SetupSeries.

Lemma stream_calls_cons (name : option string) (c : stream_call)
  (calls : list stream_call) (p : Process) :
  stream_calls name (c :: calls) p =
    stream_calls name calls
      (setup_stream_logger name (sc_stream c) (sc_level_logger c)
         (sc_level_handler c) (sc_fmt c) p).1.
Proof. reflexivity. Qed.

Lemma stream_calls_present (name : option string) (calls : list stream_call)
  (p : Process) :
  existsb isinstance_StreamHandler (handlers_of name p) = true ->
  handlers_of name (stream_calls name calls p) = handlers_of name p.
Proof.
  revert p. induction calls as [|c calls IH]; intros p Hex; [done|].
  rewrite stream_calls_cons.
  assert (handlers_of name
            (setup_stream_logger name (sc_stream c) (sc_level_logger c)
               (sc_level_handler c) (sc_fmt c) p).1 = handlers_of name p)
    as Hsame.
  { rewrite setup_stream_logger_eq. cbn zeta. rewrite Hex.
    apply handlers_of_resolve. }
  rewrite IH; [exact Hsame | by rewrite Hsame].
Qed.

(** X15.  However many times [setup_stream_logger] is called on a
    logger, with whatever streams, levels and formats, by a caller that
    goes on after a call that raised, the logger gets at most one
    stream handler: on a logger without a handler of stream type, the
    first call with a valid format attaches its handler, and the calls
    before it and after it attach nothing. *)
Theorem stream_calls_attach_once (p : Process) (name : option string)
  (calls : list stream_call) :
  wf p ->
  existsb isinstance_StreamHandler (handlers_of name p) = false ->
  match List.find (fun c => Formatter.valid (sc_fmt c)) calls with
  | None => handlers_of name (stream_calls name calls p) = handlers_of name p
  | Some c =>
      exists h format,
        handlers_of name (stream_calls name calls p) =
          handlers_of name p ++ [h]
        /\ Formatter.new (sc_fmt c) = ok format
        /\ h_kind h = StreamHandler (default sys_stderr (sc_stream c))
        /\ h_level h = sc_level_handler c
        /\ h_formatter h = Some format
  end.
Proof.
  revert p. induction calls as [|c calls IH]; intros p Hwf Hnone; [done|].
  rewrite stream_calls_cons. cbn [List.find].
  pose proof (wf_setup_stream name (sc_stream c) (sc_level_logger c)
                (sc_level_handler c) (sc_fmt c) p Hwf) as Hwf1.
  revert Hwf1. rewrite setup_stream_logger_eq. cbn zeta. rewrite Hnone.
  unfold Formatter.valid at 1.
  destruct (Formatter.new (sc_fmt c)) as [format|e] eqn:Hfmt; simpl;
    intros Hwf1.
  - eexists _, format.
    rewrite stream_calls_present.
    + split; [apply handlers_of_attached; [apply Hwf | done]|]. done.
    + rewrite handlers_of_attached; [|apply Hwf|done].
      by apply existsb_app_r.
  - specialize (IH _ Hwf1). rewrite handlers_of_created in IH.
    by apply IH.
Qed.

Lemma stream_calls_attach_once_witness :
  exists h format,
    handlers_of (Some "app")
      (stream_calls (Some "app")
         [ {| sc_stream := None; sc_level_logger := Some DEBUG;
              sc_level_handler := DEBUG; sc_fmt := "no field" |};
           {| sc_stream := Some sys_stdout; sc_level_logger := None;
              sc_level_handler := WARNING; sc_fmt := "%(levelname)s" |};
           {| sc_stream := Some (other_stream 7);
              sc_level_logger := Some WARNING;
              sc_level_handler := DEBUG; sc_fmt := "%(name)s" |} ]
         (fresh_process "/tmp")) =
      handlers_of (Some "app") (fresh_process "/tmp") ++ [h]
    /\ Formatter.new "%(levelname)s" = ok format
    /\ h_kind h = StreamHandler sys_stdout
    /\ h_level h = WARNING
    /\ h_formatter h = Some format.
Proof.
  apply (stream_calls_attach_once (fresh_process "/tmp") (Some "app")
           [ {| sc_stream := None; sc_level_logger := Some DEBUG;
                sc_level_handler := DEBUG; sc_fmt := "no field" |};
             {| sc_stream := Some sys_stdout; sc_level_logger := None;
                sc_level_handler := WARNING; sc_fmt := "%(levelname)s" |};
             {| sc_stream := Some (other_stream 7);
                sc_level_logger := Some WARNING;
                sc_level_handler := DEBUG; sc_fmt := "%(name)s" |} ]
           (wf_fresh_process "/tmp")).
  reflexivity.
Defined.

(** X16.  The order of the two helpers matters.  On a logger without
    handlers, a call of [setup_stream_logger] and then a call of
    [setup_file_logger], both returning normally, attach both handlers,
    the stream handler first: the scan of the file helper looks at file
    handlers only. *)
Theorem file_after_stream (fs : FileSystem) (p : Process)
  (name : option string) (filename : path_arg) (mode : string)
  (enc : option string) (stream : option stream) (lls llf : option Z)
  (lhs lhf : Z) (fmts fmtf : string) :
  handlers_of name p = [] ->
  let first := setup_stream_logger name stream lls lhs fmts p in
  let second := setup_file_logger fs filename name mode enc llf lhf fmtf
                  first.1 in
  first.2 = ok tt ->
  second.2 = ok tt ->
  exists format_s format_f,
    Formatter.new fmts = ok format_s
    /\ Formatter.new fmtf = ok format_f
    /\ handlers_of name second.1 =
         [{| h_ident := objects p;
             h_kind := StreamHandler (default sys_stderr stream);
             h_level := lhs; h_formatter := Some format_s |};
          {| h_ident := S (objects p);
             h_kind := FileHandler (abspath (cwd p) (fspath filename)) mode enc;
             h_level := lhf; h_formatter := Some format_f |}].
Proof.
  intros Hempty first second Hok1 Hok2.
  assert (Hfirst : first =
    match Formatter.new fmts with
    | inr e => (created (resolve name lls p), raise e)
    | inl format =>
        (addHandler (logger_key name)
           {| h_ident := objects p;
              h_kind := StreamHandler (default sys_stderr stream);
              h_level := lhs; h_formatter := Some format |}
           (created (resolve name lls p)), ok tt)
    end).
  { unfold first. rewrite setup_stream_logger_eq. cbn zeta.
    by rewrite Hempty. }
  destruct (Formatter.new fmts) as [format_s|e]; [|by rewrite Hfirst in Hok1].
  remember (first.1) as p1 eqn:Hp1.
  assert (H1 : handlers_of name p1 =
            [{| h_ident := objects p;
                h_kind := StreamHandler (default sys_stderr stream);
                h_level := lhs; h_formatter := Some format_s |}]).
  { rewrite Hp1, Hfirst. simpl.
    rewrite handlers_of_attached; [by rewrite Hempty | | done].
    rewrite Hempty. constructor. }
  assert (Hobj : objects p1 = S (objects p)).
  { rewrite Hp1, Hfirst. simpl. rewrite objects_addHandler. simpl.
    by rewrite objects_resolve. }
  assert (Hcwd : cwd p1 = cwd p).
  { rewrite Hp1, Hfirst. simpl. rewrite cwd_addHandler. simpl.
    by rewrite cwd_resolve. }
  assert (Hsecond : second =
    match fs (abspath (cwd p) (fspath filename)) mode enc with
    | Some e => (created (resolve name llf p1), raise e)
    | None =>
        match Formatter.new fmtf with
        | inr e => (created (resolve name llf p1), raise e)
        | inl format =>
            (addHandler (logger_key name)
               {| h_ident := S (objects p);
                  h_kind := FileHandler (abspath (cwd p) (fspath filename))
                              mode enc;
                  h_level := lhf; h_formatter := Some format |}
               (created (resolve name llf p1)), ok tt)
        end
    end).
  { unfold second. rewrite setup_file_logger_eq. cbn zeta.
    by rewrite H1, Hobj, Hcwd. }
  rewrite Hsecond in Hok2 |- *.
  destruct (fs _ mode enc); [done|].
  destruct (Formatter.new fmtf) as [format_f|]; [|done].
  exists format_s, format_f. split; [done|]. split; [done|]. simpl.
  unfold handlers_of at 1.
  rewrite handlers_addHandler; rewrite get_created, handlers_resolve, H1.
  - done.
  - simpl. rewrite orb_false_r. apply Nat.eqb_neq. lia.
Qed.

Lemma file_after_stream_witness :
  exists format_s format_f,
    Formatter.new "%(levelname)s" = ok format_s
    /\ Formatter.new "%(message)s" = ok format_f
    /\ handlers_of None
         (setup_file_logger Sample.fs (PathStr "app.log") None "a" None
            (Some DEBUG) DEBUG "%(message)s"
            (setup_stream_logger None None (Some DEBUG) WARNING "%(levelname)s"
               (fresh_process "/tmp")).1).1 =
         [{| h_ident := 0; h_kind := StreamHandler sys_stderr;
             h_level := WARNING; h_formatter := Some format_s |};
          {| h_ident := 1; h_kind := FileHandler "/tmp/app.log" "a" None;
             h_level := DEBUG; h_formatter := Some format_f |}].
Proof.
  apply (file_after_stream Sample.fs (fresh_process "/tmp") None
           (PathStr "app.log") "a" None None (Some DEBUG) (Some DEBUG)
           WARNING DEBUG "%(levelname)s" "%(message)s").
  - reflexivity.
  - reflexivity.
  - reflexivity.
Defined.

End SetupSeries.

Section DatabaseSetup.

Import DatabaseHandler.

Lemma setup_database_logger_eq conn tbl name attrs ll lh p tr :
  setup_database_logger conn tbl name attrs ll lh p tr =
    let r := resolve name ll p in
    match init conn tbl attrs tr with
    | (tr', inr e) => (created r, tr', raise e)
    | (tr', inl d) =>
        (addHandler (logger_key name)
           {| h_ident := objects r;
              h_kind := DatabaseHandler_ (handler_setLevel lh d);
              h_level := lh; h_formatter := None |} (created r),
         tr', ok tt)
    end.
Proof. reflexivity. Qed.

(** X17.  When the construction of the handler raises (a mapping with
    an unknown attribute, or a connection that gives no cursor), the
    exception reaches the caller of [setup_database_logger] and no
    handler is attached, but the level of the logger has been set
    already; with an unknown attribute no cursor has been asked for. *)
Theorem setup_database_logger_failure (conn : Connection) (tbl : string)
  (name : option string) (attrs : option (list (string * string)))
  (ll : option Z) (lh : Z) (p : Process) (tr tr' : list event) (e : exn) :
  init conn tbl attrs tr = (tr', raise e) ->
  exists p',
    setup_database_logger conn tbl name attrs ll lh p tr = (p', tr', raise e)
    /\ handlers_of name p' = handlers_of name p
    /\ lg_level (get (logger_key name) p') =
         default (lg_level (get (logger_key name) p)) ll
    /\ (diff (mapping_or attrs LOG_TABLE_MAP) <> ∅ -> tr' = tr).
Proof.
  intros Hinit. rewrite setup_database_logger_eq. cbn zeta. rewrite Hinit.
  eexists. split; [reflexivity|]. unfold handlers_of.
  rewrite get_created, handlers_resolve, level_resolve.
  split; [done|]. split; [done|].
  intros Hd. rewrite (init_of_invalid _ _ _ _ Hd) in Hinit. by inversion Hinit.
Qed.

Lemma setup_database_logger_failure_witness :
  exists p',
    setup_database_logger (Sample.connection_of Sample.committing_cursor) "T"
      (Some "app") (Some [("func_name", "funcname")]) (Some DEBUG) WARNING
      (fresh_process "/tmp") [] =
      (p', [], raise (Exn "AttributeError" true
                        "'LogRecord' object has no attribute 'funcname'"))
    /\ handlers_of (Some "app") p' =
         handlers_of (Some "app") (fresh_process "/tmp")
    /\ lg_level (get (logger_key (Some "app")) p') =
         default (lg_level (get (logger_key (Some "app"))
                              (fresh_process "/tmp"))) (Some DEBUG)
    /\ (diff (mapping_or (Some [("func_name", "funcname")]) LOG_TABLE_MAP) <> ∅ ->
        [] = ([] : list event)).
Proof.
  apply (setup_database_logger_failure
           (Sample.connection_of Sample.committing_cursor) "T" (Some "app")
           (Some [("func_name", "funcname")]) (Some DEBUG) WARNING
           (fresh_process "/tmp") [] []).
  by vm_compute.
Defined.

(** X18.  With a valid mapping and a connection that gives a cursor,
    [setup_database_logger] asks for one cursor and attaches one new
    database handler at the given level, after the handlers that are
    there; it does not look for a handler attached before, so that
    every call adds a handler. *)
Theorem setup_database_logger_attaches (conn : Connection) (tbl : string)
  (name : option string) (attrs : option (list (string * string)))
  (ll : option Z) (lh : Z) (p : Process) (tr : list event) (cur : Cursor) :
  wf p ->
  diff (mapping_or attrs LOG_TABLE_MAP) = ∅ ->
  conn_cursor conn = ok cur ->
  exists p',
    setup_database_logger conn tbl name attrs ll lh p tr =
      (p', tr ++ [Called OnConnection m_cursor], ok tt)
    /\ handlers_of name p' =
         handlers_of name p ++
         [{| h_ident := objects p;
             h_kind := DatabaseHandler_
                         {| connection := conn; table := tbl;
                            mapping := mapping_or attrs LOG_TABLE_MAP;
                            cursor := cur; level := lh |};
             h_level := lh; h_formatter := None |}]
    /\ lg_level (get (logger_key name) p') =
         default (lg_level (get (logger_key name) p)) ll
    /\ wf p'.
Proof.
  intros Hwf Hd Hcur. rewrite setup_database_logger_eq. cbn zeta.
  rewrite (init_of_valid _ _ _ _ Hd), Hcur.
  eexists. split; [reflexivity|]. unfold handlers_of.
  rewrite level_addHandler, get_created, level_resolve, objects_resolve.
  split; [|split; [done|]].
  - rewrite handlers_addHandler; rewrite get_created, handlers_resolve;
      [done|].
    apply fresh_ident, Hwf.
  - apply wf_addHandler; [by apply wf_created, wf_resolve|].
    simpl. rewrite objects_resolve. lia.
Qed.

Lemma setup_database_logger_attaches_witness :
  exists p',
    setup_database_logger (Sample.connection_of Sample.committing_cursor) "T"
      None None (Some DEBUG) DEBUG (fresh_process "/tmp") [] =
      (p', [] ++ [Called OnConnection m_cursor], ok tt)
    /\ handlers_of None p' =
         handlers_of None (fresh_process "/tmp") ++
         [{| h_ident := 0;
             h_kind := DatabaseHandler_
                         {| connection :=
                              Sample.connection_of Sample.committing_cursor;
                            table := "T";
                            mapping := mapping_or None LOG_TABLE_MAP;
                            cursor := Sample.committing_cursor;
                            level := DEBUG |};
             h_level := DEBUG; h_formatter := None |}]
    /\ lg_level (get (logger_key None) p') =
         default (lg_level (get (logger_key None) (fresh_process "/tmp")))
           (Some DEBUG)
    /\ wf p'.
Proof.
  apply (setup_database_logger_attaches
           (Sample.connection_of Sample.committing_cursor) "T" None None
           (Some DEBUG) DEBUG (fresh_process "/tmp") []
           Sample.committing_cursor (wf_fresh_process "/tmp")
           LOG_TABLE_MAP_valid eq_refl).
Defined.

End DatabaseSetup.

(* ================================================================== *)
(** * Evaluations *)
(* ================================================================== *)

Example splitlines_ex1 :
  PyStr.splitlines
    ("a" +:+ String PyStr.LF "" +:+ "b" +:+ String PyStr.CR (String PyStr.LF "c")
     +:+ String PyStr.LF "") = ["a"; "b"; "c"].
Proof. reflexivity. Qed.
Example sorted_diff_ex :
  DatabaseHandler.sorted
    (DatabaseHandler.diff
       [("a", "zz"); ("b", "name"); ("c", "funcname"); ("d", "zz")]) =
    ["funcname"; "zz"].
Proof. vm_compute. reflexivity. Qed.

Example abspath_ex1 : abspath "/srv/app" "log/../app.log" = "/srv/app/app.log".
Proof. vm_compute. reflexivity. Qed.
Example abspath_ex2 : abspath "/srv/app" "//x/./y//z/" = "//x/y/z".
Proof. vm_compute. reflexivity. Qed.
Example abspath_ex3 : abspath "/srv/app" "/../.." = "/".
Proof. vm_compute. reflexivity. Qed.
Example lower_ex : PyStr.lower "relativeCreated" = "relativecreated".
Proof. reflexivity. Qed.
Example strip_ex : PyStr.strip "  ok  " = "ok".
Proof. reflexivity. Qed.
Example format_ex :
  PyStr.format "a {x} b{y};" [("x", "1"); ("y", "{2}")] = Some "a 1 b{2};".
Proof. reflexivity. Qed.
Example formatter_default_fmt :
  Formatter.new "%(asctime)s %(levelname)-8s %(message)s" =
    ok "%(asctime)s %(levelname)-8s %(message)s".
Proof. reflexivity. Qed.
Example formatter_empty_fmt : Formatter.new "" = ok "%(message)s".
Proof. reflexivity. Qed.
Example formatter_precision : Formatter.valid "at %(created)-012.3F" = true.
Proof. reflexivity. Qed.
Example formatter_no_field :
  Formatter.new "hello" =
    raise (Exn "ValueError" true "Invalid format 'hello' for '%' style").
Proof. reflexivity. Qed.
Example formatter_open_field : Formatter.valid "%(message)" = false.
Proof. reflexivity. Qed.
Example formatter_dot_without_digits : Formatter.valid "%(message).s" = false.
Proof. reflexivity. Qed.
